(** * DevTask browser client: [static/js/app.js]

    A shallow embedding of the client script and the properties its
    specification states about it.

    The script is UI glue around three things it does not own: the
    browser's engine (conversions of values, number printing, the room
    left in the storage), the server behind [fetch], and the person
    answering [confirm].  The first is a
    record of built-ins, [engine]; the other two are functions of the
    history, so that every theorem holds for every server and every user.

    Asynchronous functions are run to completion one at a time: an [await]
    is a point where the environment answers, and no second handler (or
    other tab writing the storage) is interleaved.  A promise that nobody
    awaits and that rejects leaves an [UnhandledRejection] in the trace.  The handlers are run directly; the
    wiring of lines 183-214 records which function is registered on
    which element, and the theorems about a handler do not depend on it. *)

From Stdlib Require Import ZArith String Ascii List Bool Lia.
From Stdlib Require Import PrimFloat FloatOps SpecFloat FloatAxioms.
From stdpp Require Import base option list gmap strings pretty.

Open Scope string_scope.
Set Warnings "-register-all".

(** ** JavaScript values *)

(** What [JSON.parse] can produce, plus [undefined] (a missing property). *)
Inductive value :=
| VUndefined
| VNull
| VBool (b : bool)
| VNum (x : float)
| VStr (s : string)
| VArr (items : list value)
| VObj (props : list (string * value)).

(** Errors the engine raises by itself. *)
Inductive type_error :=
| ReadOfNullish (base : value) (prop : string)
| WriteOnNull (prop : string)
| NotAFunction (callee : string)
| NotPrimitive.

(** Built-ins whose result the script relies on but does not compute.
    [number_to_string] is [Number::toString] (its last digit is left to the
    implementation by ECMAScript), [type_error_message] the wording of the
    engine's own errors.  [storage_accepts items key value] tells whether
    [localStorage.setItem(key, value)] finds room when the storage holds
    [items] (the quota is the browser's), [quota_message] is the message
    of the exception it throws when there is none. *)
Record engine := {
  number_to_string : float -> string;
  parseFloat : string -> float;
  type_error_message : type_error -> string;
  storage_accepts : gmap string string -> string -> string -> bool;
  quota_message : string;
}.

Inductive exn :=
| Error (msg : string)
| TypeError (msg : string)
| SyntaxError (msg : string)
| DOMException (name msg : string).

Definition message (e : exn) : string :=
  match e with
  | Error m | TypeError m | SyntaxError m | DOMException _ m => m
  end.

Inductive outcome (A : Type) :=
| Return (a : A)
| Throw (e : exn).
Arguments Return {A} a.
Arguments Throw {A} e.

(** ** Conversions *)

Fixpoint assoc (p : string) (kv : list (string * value)) : option value :=
  match kv with
  | [] => None
  | (k, v) :: rest => if String.eqb k p then Some v else assoc p rest
  end.

(** ToBoolean. *)
Definition truthy (v : value) : bool :=
  match v with
  | VUndefined | VNull => false
  | VBool b => b
  | VNum x => negb (is_zero x || is_nan x)
  | VStr s => negb (String.eqb s "")
  | VArr _ | VObj _ => true
  end.

(** [a || b] *)
Definition js_or (a b : value) : value := if truthy a then a else b.

Section Engine.
Variable eng : engine.

(** ToString of a primitive value. *)
Definition prim_string (v : value) : string :=
  match v with
  | VUndefined => "undefined"
  | VNull => "null"
  | VBool b => if b then "true" else "false"
  | VNum x => number_to_string eng x
  | VStr s => s
  | VArr _ | VObj _ => ""
  end.

(** ToString.  An array prints its elements separated by commas, with
    [null] and [undefined] elements printed as nothing.  An object parsed
    from JSON prints through [Object.prototype.toString] unless it has a
    [toString] key of its own: that value is not callable, the inherited
    [valueOf] answers the object itself, and the conversion ends in a
    [TypeError].  An array element is converted the same way, so the
    first element that cannot be converted makes the array throw. *)
Fixpoint to_string (v : value) : outcome string :=
  match v with
  | VArr items =>
      (fix join (l : list value) : outcome string :=
         match l with
         | [] => Return ""
         | x :: rest =>
             match (match x with
                    | VUndefined | VNull => Return ""
                    | _ => to_string x
                    end) with
             | Throw e => Throw e
             | Return sx =>
                 match rest with
                 | [] => Return sx
                 | _ :: _ =>
                     match join rest with
                     | Throw e => Throw e
                     | Return sr => Return (sx ++ "," ++ sr)
                     end
                 end
             end
         end) items
  | VObj props =>
      match assoc "toString" props with
      | Some _ => Throw (TypeError (type_error_message eng NotPrimitive))
      | None => Return "[object Object]"
      end
  | _ => Return (prim_string v)
  end.

(** ToPrimitive on the values above: arrays and plain objects become
    their string, or throw as [to_string] does (with no preferred type
    [valueOf] is asked first, and a [toString] key of the object's own
    ends the conversion all the same). *)
Definition to_primitive (v : value) : outcome value :=
  match v with
  | VArr _ | VObj _ =>
      match to_string v with
      | Return s => Return (VStr s)
      | Throw e => Throw e
      end
  | _ => Return v
  end.

(** ToNumber on a primitive that is not a string. *)
Definition prim_number (v : value) : float :=
  match v with
  | VNull => 0%float
  | VBool b => if b then 1%float else 0%float
  | VNum x => x
  | _ => nan
  end.

Definition is_str (v : value) : bool :=
  match v with VStr _ => true | _ => false end.

(** [a + b]: the left operand is converted first. *)
Definition js_add (a b : value) : outcome value :=
  match to_primitive a with
  | Throw e => Throw e
  | Return pa =>
      match to_primitive b with
      | Throw e => Throw e
      | Return pb =>
          Return (if is_str pa || is_str pb
                  then VStr (prim_string pa ++ prim_string pb)
                  else VNum (prim_number pa + prim_number pb)%float)
      end
  end.

(** [v.p] for the field names the script reads ([detail], [access_token],
    [items], [status], [title], [time_logged], [id]); none of them is
    found on a prototype, so only an object's own properties answer. *)
Definition get_prop (v : value) (p : string) : outcome value :=
  match v with
  | VUndefined | VNull =>
      Throw (TypeError (type_error_message eng (ReadOfNullish v p)))
  | VObj kv => Return (default VUndefined (assoc p kv))
  | _ => Return VUndefined
  end.

(** *** [Number.prototype.toFixed] *)

(** The integer closest to [m * 2^e * 10^f]; the larger one on a tie. *)
Definition round_half_up (m e : Z) (f : nat) : Z :=
  let num := (m * 10 ^ Z.of_nat f)%Z in
  if (0 <=? e)%Z then (num * 2 ^ e)%Z
  else ((2 * num + 2 ^ (- e)) / 2 ^ (- e + 1))%Z.

Definition at_least_1e21 (m e : Z) : bool :=
  if (0 <=? e)%Z then (10 ^ 21 <=? m * 2 ^ e)%Z
  else (10 ^ 21 * 2 ^ (- e) <=? m)%Z.

Fixpoint zeros (n : nat) : string :=
  match n with
  | O => ""
  | S k => String "0" (zeros k)
  end.

(** The digits of [n] with a point before the last [f] of them. *)
Definition fixed_point (f : nat) (n : Z) : string :=
  let m := pretty (Z.to_N n) in
  if Nat.eqb f 0 then m
  else
    let m := zeros (f + 1 - String.length m) ++ m in
    let k := String.length m in
    substring 0 (k - f) m ++ "." ++ substring (k - f) f m.

(** [x.toFixed(f)] for [0 <= f <= 100] (the script passes 1).  A value
    that is not finite prints as [Number::toString] has it; otherwise the
    sign comes first, then the magnitude: printed by [Number::toString]
    from 10^21 on, in fixed-point notation below. *)
Definition toFixed (f : nat) (x : float) : string :=
  match Prim2SF x with
  | S754_nan | S754_infinity _ => number_to_string eng x
  | S754_zero _ => fixed_point f 0
  | S754_finite s m e =>
      (if s then "-" else "") ++
      (if at_least_1e21 (Z.pos m) e then number_to_string eng (abs x)
       else fixed_point f (round_half_up (Z.pos m) e f))
  end.

(** [v.toFixed(f)]: only numbers have the method. *)
Definition call_toFixed (v : value) (f : nat) : outcome string :=
  match v with
  | VNum x => Return (toFixed f x)
  | VUndefined | VNull =>
      Throw (TypeError (type_error_message eng (ReadOfNullish v "toFixed")))
  | _ => Throw (TypeError (type_error_message eng (NotAFunction "toFixed")))
  end.

(** *** [String.prototype.replace] with a one-character pattern: the
    first occurrence only. *)
Fixpoint replace_first (c d : ascii) (s : string) : string :=
  match s with
  | EmptyString => EmptyString
  | String a rest =>
      if Ascii.eqb a c then String d rest
      else String a (replace_first c d rest)
  end.

(** [v.replace("_", " ")] *)
Definition call_replace (v : value) : outcome string :=
  match v with
  | VStr s => Return (replace_first "_" " " s)
  | VUndefined | VNull =>
      Throw (TypeError (type_error_message eng (ReadOfNullish v "replace")))
  | _ => Throw (TypeError (type_error_message eng (NotAFunction "replace")))
  end.
End Engine.

(** ** The page, the network and the trace *)

(** The click listener the script attaches to a row's button: the closure
    that captured [task]. *)
Inductive listener :=
| DeleteTask (task : value).

(** A DOM subtree.  [Markup] is what an assignment to [innerHTML] leaves:
    the markup itself, not parsed further. *)
Inductive node :=
| Text (s : string)
| Markup (html : string)
| Elem (tag className : string) (children : list node)
       (onclick : option listener).

(** An element of the page markup, found by its id. *)
Record element := {
  hidden : bool;
  content : list node;
}.

(** A [fetch] call: the URL and the init object.  [body] is the JSON text
    sent, given by the value it parses to. *)
Record request := {
  url : string;
  method : option string;
  headers : gmap string string;
  body : option value;
}.

(** The second argument of [apiRequest]. *)
Record options := {
  opt_method : option string;
  opt_headers : option (gmap string string);
  opt_body : option value;
}.

Definition no_options : options :=
  {| opt_method := None; opt_headers := None; opt_body := None |}.

(** What [res.json()] finds in the body. *)
Inductive json_body :=
| Malformed (why : string)
| Json (v : value).

Record response := {
  status : Z;
  payload : json_body;
}.

Inductive fetch_result :=
| NetworkError (why : string)
| Responded (res : response).

Inductive event :=
| Fetch (req : request)
| ParseJson
| Confirm (question : string)
| Navigate (href : string)
| PreventDefault
| FormReset
| UnhandledRejection (e : exn).

(** Everything outside the script: the engine, the server's answer to a
    request and the user's answer to a prompt, each given the history. *)
Record world := {
  js : engine;
  server : list event -> request -> fetch_result;
  user : list event -> string -> bool;
}.

Record state := {
  localStorage : gmap string string;
  document : gmap string element;
  location : string;
  trace : list event;
}.

Definition with_storage (f : gmap string string -> gmap string string)
    (st : state) : state :=
  {| localStorage := f (localStorage st); document := document st;
     location := location st; trace := trace st |}.

Definition with_document (f : gmap string element -> gmap string element)
    (st : state) : state :=
  {| localStorage := localStorage st; document := f (document st);
     location := location st; trace := trace st |}.

Definition with_location (href : string) (st : state) : state :=
  {| localStorage := localStorage st; document := document st;
     location := href; trace := trace st |}.

Definition record (ev : event) (st : state) : state :=
  {| localStorage := localStorage st; document := document st;
     location := location st; trace := trace st ++ [ev] |}.

(** ** Computations: state and exceptions *)

Definition M (A : Type) : Type := state -> outcome A * state.

Definition ret {A} (a : A) : M A := fun st => (Return a, st).

Definition throw {A} (e : exn) : M A := fun st => (Throw e, st).

Definition bind {A B} (m : M A) (k : A -> M B) : M B :=
  fun st =>
    match m st with
    | (Return a, st') => k a st'
    | (Throw e, st') => (Throw e, st')
    end.

(** [try { m } catch (err) { h err }] *)
Definition try_catch {A} (m : M A) (h : exn -> M A) : M A :=
  fun st =>
    match m st with
    | (Return a, st') => (Return a, st')
    | (Throw e, st') => h e st'
    end.

(** A call whose promise is dropped: the caller goes on, and a rejection
    is nobody's. *)
Definition detached (m : M unit) : M unit :=
  fun st =>
    match m st with
    | (Return _, st') => (Return tt, st')
    | (Throw e, st') => (Return tt, record (UnhandledRejection e) st')
    end.

Definition lift {A} (o : outcome A) : M A := fun st => (o, st).

Definition emit (ev : event) : M unit := fun st => (Return tt, record ev st).

Notation "'let*' x ':=' m 'in' k" := (bind m (fun x => k))
  (at level 10, x name, m at level 100, k at level 200).

(** [l.forEach(f)], with the variables [f] updates threaded through. *)
Fixpoint for_each {A S} (f : A -> S -> M S) (l : list A) (s : S) : M S :=
  match l with
  | [] => ret s
  | a :: rest => let* s' := f a s in for_each f rest s'
  end.

(** ** DOM primitives *)

(** A reference to an element of the page, or [null]. *)
Definition handle := option string.

Definition getElementById (id : string) : M handle :=
  fun st =>
    (Return (match document st !! id with
             | Some _ => Some id
             | None => None
             end), st).

(** The children a [textContent] assignment leaves: [null] and
    [undefined] count as the empty string, which leaves none. *)
Definition text_nodes (s : string) : list node :=
  if String.eqb s "" then [] else [Text s].

Definition markup_nodes (html : string) : list node :=
  if String.eqb html "" then [] else [Markup html].

Definition set_content (c : list node) (el : element) : element :=
  {| hidden := hidden el; content := c |}.

Definition createElement (tag : string) : node := Elem tag "" [] None.

Definition set_className (c : string) (n : node) : node :=
  match n with
  | Elem tag _ ch l => Elem tag c ch l
  | _ => n
  end.

Definition set_text (s : string) (n : node) : node :=
  match n with
  | Elem tag c _ l => Elem tag c (text_nodes s) l
  | _ => n
  end.

Definition appendChild (child : node) (n : node) : node :=
  match n with
  | Elem tag c ch l => Elem tag c (ch ++ [child]) l
  | _ => n
  end.

Definition addClickListener (l : listener) (n : node) : node :=
  match n with
  | Elem tag c ch _ => Elem tag c ch (Some l)
  | _ => n
  end.

Definition set_hidden (b : bool) (el : element) : element :=
  {| hidden := b; content := content el |}.

Definition append_content (child : node) (el : element) : element :=
  {| hidden := hidden el; content := content el ++ [child] |}.

(** The string a [textContent] assignment stores for a value: the
    setter takes [null] and [undefined] for the empty string and converts
    anything else with ToString. *)
Definition text_of (eng : engine) (v : value) : outcome string :=
  match v with
  | VUndefined | VNull => Return ""
  | _ => to_string eng v
  end.

(** The text [JSON.stringify] writes for a value, given by the value
    [JSON.parse] reads back from it: a number that is not finite is
    written as [null] and either zero as [0]; an [undefined] property is
    left out, an [undefined] array element is written as [null]. *)
Fixpoint JSON_stringify (v : value) : value :=
  match v with
  | VNum x =>
      if is_nan x || is_infinity x then VNull
      else if is_zero x then VNum 0%float
      else VNum x
  | VArr items =>
      VArr ((fix elements (l : list value) : list value :=
               match l with
               | [] => []
               | x :: rest =>
                   match x with
                   | VUndefined => VNull
                   | _ => JSON_stringify x
                   end :: elements rest
               end) items)
  | VObj props =>
      VObj ((fix members (l : list (string * value))
               : list (string * value) :=
               match l with
               | [] => []
               | (k, x) :: rest =>
                   match x with
                   | VUndefined => members rest
                   | _ => (k, JSON_stringify x) :: members rest
                   end
               end) props)
  | _ => v
  end.

(** [localStorage.getItem] answers [null] or a string. *)
Definition item_value (o : option string) : value :=
  match o with
  | Some s => VStr s
  | None => VNull
  end.

(** [Object.assign(target, ...sources)]: a later source overwrites. *)
Definition Object_assign (target : gmap string string)
    (sources : list (gmap string string)) : gmap string string :=
  fold_left (fun acc src => src ∪ acc) sources target.

(** [res.ok] *)
Definition ok (res : response) : bool :=
  (200 <=? status res)%Z && (status res <=? 299)%Z.

(** [x === "s"] *)
Definition is_string (s : string) (v : value) : bool :=
  match v with
  | VStr t => String.eqb t s
  | _ => false
  end.

Definition API_BASE : string := "".

Definition placeholder_markup : string :=
  "<p>No tasks yet. Create your first one above.</p>".

(** The form fields the handlers read. *)
Record auth_form := {
  email : string;
  password : string;
}.

Record task_form := {
  title_field : string;
  status_field : string;
  time_logged_field : string;
}.

(** ** The script *)

Section Script.
Variable w : world.

Definition engine_throws {A} (t : type_error) : M A :=
  throw (TypeError (type_error_message (js w) t)).

(** [h.prop = ...] on an element of the page; on [null] the engine throws. *)
Definition assign (h : handle) (prop : string) (f : element -> element)
    : M unit :=
  match h with
  | None => engine_throws (WriteOnNull prop)
  | Some id => fun st => (Return tt, with_document (alter f id) st)
  end.

(** [h.appendChild(child)] *)
Definition call_appendChild (h : handle) (child : node) : M unit :=
  match h with
  | None => engine_throws (ReadOfNullish VNull "appendChild")
  | Some id =>
      fun st => (Return tt, with_document (alter (append_content child) id) st)
  end.

(** [window.location.href = href] *)
Definition navigate (href : string) : M unit :=
  fun st => (Return tt, record (Navigate href) (with_location href st)).

(** [confirm(question)] *)
Definition confirm (question : string) : M bool :=
  fun st => (Return (user w (trace st) question), record (Confirm question) st).

(** [fetch(url, init)]: a network failure rejects with a [TypeError]. *)
Definition fetch (req : request) : M response :=
  fun st =>
    match server w (trace st) req with
    | NetworkError why => (Throw (TypeError why), record (Fetch req) st)
    | Responded res => (Return res, record (Fetch req) st)
    end.

(** [res.json()] *)
Definition json (res : response) : M value :=
  let* _ := emit ParseJson in
  match payload res with
  | Malformed why => throw (SyntaxError why)
  | Json v => ret v
  end.

(** *** Session store (lines 3-13) *)

Definition getToken : M (option string) :=
  fun st => (Return (localStorage st !! "devtask_token"), st).

(** [localStorage.setItem(key, value)]: the value is converted to a
    string first; when the storage has no room for the item the call
    throws and the storage stays as it was. *)
Definition setItem (key : string) (v : value) : M unit :=
  let* s := lift (to_string (js w) v) in
  fun st =>
    if storage_accepts (js w) (localStorage st) key s
    then (Return tt, with_storage (insert key s) st)
    else (Throw (DOMException "QuotaExceededError" (quota_message (js w))),
          st).

(** [localStorage.removeItem(key)] *)
Definition removeItem (key : string) : M unit :=
  fun st => (Return tt, with_storage (delete key) st).

Definition setToken (token : value) : M unit :=
  if truthy token then setItem "devtask_token" token
  else removeItem "devtask_token".

(** *** API client (lines 15-39) *)

Definition request_headers (token : option string)
    (caller : option (gmap string string)) : gmap string string :=
  Object_assign {[ "Content-Type" := "application/json" ]}
    [ default ∅ caller;
      if truthy (item_value token)
      then {[ "Authorization" :=
                "Bearer " ++ prim_string (js w) (item_value token) ]}
      else ∅ ].

Definition apiRequest (path : string) (opts : options) : M value :=
  let* token := getToken in
  let headers := request_headers token (opt_headers opts) in
  let* res := fetch {| url := API_BASE ++ path;
                       method := opt_method opts;
                       headers := headers;
                       body := opt_body opts |} in
  if negb (ok res) then
    let* msg :=
      try_catch
        (let* data := json res in
         let* detail := lift (get_prop (js w) data "detail") in
         ret (js_or detail (VStr "Request failed")))
        (fun _ => ret (VStr "Request failed")) in
    let* text := lift (to_string (js w) msg) in
    throw (Error text)
  else if (status res =? 204)%Z then ret VNull
  else json res.

(** *** Auth flows (lines 42-93) *)

Definition credentials (form : auth_form) : value :=
  VObj [("email", VStr (email form)); ("password", VStr (password form))].

(** [{ method: "POST", body: JSON.stringify(payload) }] *)
Definition post (payload : value) : options :=
  {| opt_method := Some "POST"; opt_headers := None;
     opt_body := Some (JSON_stringify payload) |}.

Definition show_error (errorEl : handle) (err : exn) : M unit :=
  let* _ := assign errorEl "textContent"
              (set_content (text_nodes (message err))) in
  assign errorEl "hidden" (set_hidden false).

Definition handleLogin (form : auth_form) : M unit :=
  let* _ := emit PreventDefault in
  let* errorEl := getElementById "login-error" in
  let* _ := assign errorEl "hidden" (set_hidden true) in
  let payload := credentials form in
  try_catch
    (let* data := apiRequest "/auth/login" (post payload) in
     let* token := lift (get_prop (js w) data "access_token") in
     let* _ := setToken token in
     navigate "/static/dashboard.html")
    (show_error errorEl).

Definition handleSignup (form : auth_form) : M unit :=
  let* _ := emit PreventDefault in
  let* errorEl := getElementById "signup-error" in
  let* _ := assign errorEl "hidden" (set_hidden true) in
  let payload := credentials form in
  try_catch
    (let* _ := apiRequest "/auth/register" (post payload) in
     let* login := apiRequest "/auth/login" (post payload) in
     let* token := lift (get_prop (js w) login "access_token") in
     let* _ := setToken token in
     navigate "/static/dashboard.html")
    (show_error errorEl).

(** *** Dashboard (lines 96-181) *)

(** The body of the [forEach] callback (lines 115-152); [acc] holds the
    closure's [totalHours] and [done].  [done] only ever counts array
    elements, so a natural number stands for it exactly. *)
Definition render_row (listEl : handle) (task : value)
    (acc : value * nat) : M (value * nat) :=
  let '(totalHours, done) := acc in
  let* logged := lift (get_prop (js w) task "time_logged") in
  let* totalHours :=
    lift (js_add (js w) totalHours (js_or logged (VNum 0%float))) in
  let* st := lift (get_prop (js w) task "status") in
  let done := if is_string "done" st then S done else done in
  let row := set_className "task-item" (createElement "div") in
  let* title_value := lift (get_prop (js w) task "title") in
  let* title_text := lift (text_of (js w) title_value) in
  let title :=
    set_text title_text
      (set_className "task-item-title" (createElement "div")) in
  let status := createElement "div" in
  let* st := lift (get_prop (js w) task "status") in
  let* suffix := lift (to_string (js w) st) in
  let pill :=
    set_className ("task-status-pill task-status-" ++ suffix)
      (createElement "span") in
  let* st := lift (get_prop (js w) task "status") in
  let* label := lift (call_replace (js w) st) in
  let pill := set_text label pill in
  let status := appendChild pill status in
  let time := set_className "task-item-meta" (createElement "div") in
  let* logged := lift (get_prop (js w) task "time_logged") in
  let* hours := lift (call_toFixed (js w) logged 1) in
  let time := set_text (hours ++ "h logged") time in
  let actions := set_className "task-actions" (createElement "div") in
  let delBtn :=
    addClickListener (DeleteTask task)
      (set_text "Delete"
         (set_className "btn btn-ghost" (createElement "button"))) in
  let actions := appendChild delBtn actions in
  let row :=
    appendChild actions
      (appendChild time (appendChild status (appendChild title row))) in
  let* _ := call_appendChild listEl row in
  ret (totalHours, done).

(** [!v.length] *)
Definition no_length (v : value) : outcome bool :=
  match v with
  | VUndefined | VNull =>
      Throw (TypeError (type_error_message (js w) (ReadOfNullish v "length")))
  | VArr l => Return (Nat.eqb (length l) 0)
  | VStr s => Return (String.eqb s "")
  | VObj kv => Return (negb (truthy (default VUndefined (assoc "length" kv))))
  | _ => Return true
  end.

Definition summary (count done : nat) (hours : string) : string :=
  pretty count ++ " tasks • " ++ pretty done ++ " completed • " ++
  hours ++ "h logged".

(** The [try] block of [loadTasks] after the request (lines 103-157). *)
Definition render_tasks (listEl statsEl : handle) (data : value) : M unit :=
  let* _ := assign listEl "innerHTML" (set_content (markup_nodes "")) in
  let* items := lift (get_prop (js w) data "items") in
  let* empty := lift (no_length items) in
  if empty then
    let* _ := assign listEl "innerHTML"
                (set_content (markup_nodes placeholder_markup)) in
    assign statsEl "textContent" (set_content (text_nodes ""))
  else
    match items with
    | VArr l =>
        let* acc := for_each (render_row listEl) l (VNum 0%float, 0) in
        let '(totalHours, done) := acc in
        let* hours := lift (call_toFixed (js w) totalHours 1) in
        assign statsEl "textContent"
          (set_content (text_nodes (summary (length l) done hours)))
    | _ => engine_throws (NotAFunction "forEach")
    end.

(** Its [catch] block (lines 158-161). *)
Definition show_failure (listEl statsEl : handle) (err : exn) : M unit :=
  let* _ := assign listEl "innerHTML"
              (set_content (markup_nodes ("<p>" ++ message err ++ "</p>"))) in
  assign statsEl "textContent" (set_content (text_nodes "")).

Definition loadTasks : M unit :=
  let* listEl := getElementById "task-list" in
  let* statsEl := getElementById "task-stats" in
  match listEl with
  | None => ret tt
  | Some _ =>
      try_catch
        (let* data := apiRequest "/tasks" no_options in
         render_tasks listEl statsEl data)
        (show_failure listEl statsEl)
  end.

(** The click listener of a row's button (lines 140-144). *)
Definition delete_click (task : value) : M unit :=
  let* yes := confirm "Delete this task?" in
  if negb yes then ret tt
  else
    let* id := lift (get_prop (js w) task "id") in
    let* id_text := lift (to_string (js w) id) in
    let* _ := apiRequest ("/tasks/" ++ id_text)
                {| opt_method := Some "DELETE"; opt_headers := None;
                   opt_body := None |} in
    detached loadTasks.

Definition new_task (form : task_form) : value :=
  VObj [("title", VStr (title_field form));
        ("status", VStr (status_field form));
        ("time_logged",
         VNum (if negb (String.eqb (time_logged_field form) "")
               then parseFloat (js w) (time_logged_field form)
               else 0%float))].

Definition handleNewTask (form : task_form) : M unit :=
  let* _ := emit PreventDefault in
  let payload := new_task form in
  let* _ := apiRequest "/tasks" (post payload) in
  let* _ := emit FormReset in
  detached loadTasks.

(** The logout button's listener (lines 204-207). *)
Definition logout_click : M unit :=
  let* _ := setToken VNull in
  navigate "/".

(** The listener of the button in a rendered row: the button is the only
    child of the row's fourth cell. *)
Definition row_listener (row : node) : option listener :=
  match row with
  | Elem _ _ [_; _; _; Elem _ _ [Elem _ _ _ l] _] _ => l
  | _ => None
  end.

(** A click on the delete button of the [i]-th row of the task list. *)
Definition click_delete (i : nat) : M unit :=
  fun st =>
    match document st !! "task-list" with
    | Some el =>
        match content el !! i with
        | Some row =>
            match row_listener row with
            | Some (DeleteTask task) => delete_click task st
            | None => (Return tt, st)
            end
        | None => (Return tt, st)
        end
    | None => (Return tt, st)
    end.
End Script.

(** ** Reading a run *)

(** The request [apiRequest path opts] hands to [fetch] when the storage
    is [storage]. *)
Definition api_call (w : world) (storage : gmap string string)
    (path : string) (opts : options) : request :=
  {| url := API_BASE ++ path;
     method := opt_method opts;
     headers := request_headers w (storage !! "devtask_token")
                  (opt_headers opts);
     body := opt_body opts |}.

(** The [fetch] calls of a trace, in order. *)
Fixpoint fetches (t : list event) : list request :=
  match t with
  | [] => []
  | Fetch req :: rest => req :: fetches rest
  | _ :: rest => fetches rest
  end.

(** How often a body was parsed. *)
Fixpoint parses (t : list event) : nat :=
  match t with
  | [] => 0
  | ParseJson :: rest => S (parses rest)
  | _ :: rest => parses rest
  end.

(** The [detail] field of an error body, when the body is a JSON object
    that has one. *)
Definition detail_of (b : json_body) : option value :=
  match b with
  | Json (VObj kv) => assoc "detail" kv
  | _ => None
  end.

(** What [apiRequest] throws for the body of a refused request: an
    [Error] carrying the [detail] as a string or the fallback, or what the
    conversion of the [detail] to a string throws. *)
Definition failure (eng : engine) (b : json_body) : exn :=
  match detail_of b with
  | Some d =>
      if truthy d then
        match to_string eng d with
        | Return text => Error text
        | Throw e => e
        end
      else Error "Request failed"
  | None => Error "Request failed"
  end.

(** What [apiRequest] makes of the server's answer; [st1] is the state
    right after the [fetch]. *)
Definition api_outcome (eng : engine) (answer : fetch_result) (st1 : state)
    : outcome value * state :=
  match answer with
  | NetworkError why => (Throw (TypeError why), st1)
  | Responded res =>
      if negb (ok res) then
        (Throw (failure eng (payload res)), record ParseJson st1)
      else if (status res =? 204)%Z then (Return VNull, st1)
      else
        match payload res with
        | Malformed why => (Throw (SyntaxError why), record ParseJson st1)
        | Json v => (Return v, record ParseJson st1)
        end
  end.

Ltac run :=
  cbv beta iota zeta delta
    [bind ret throw try_catch detached lift emit engine_throws
     getToken fetch json navigate confirm getElementById assign
     call_appendChild show_error].

(** ** Definitions the properties are stated with *)

(** The stored session token: the item under the fixed key, an empty
    string counting as none (line 20 tests the item for truth). *)
Definition stored_token (storage : gmap string string) : option string :=
  match storage !! "devtask_token" with
  | Some t => if String.eqb t "" then None else Some t
  | None => None
  end.

(** [setToken token] stores [text]: the token is truthy, [text] is its
    string form, and the storage has room for it. *)
Definition storable (eng : engine) (storage : gmap string string)
    (token : value) (text : string) : Prop :=
  truthy token = true /\ to_string eng token = Return text /\
  storage_accepts eng storage "devtask_token" text = true.

(** [setToken token] throws [e]: the token is truthy and either has no
    string form or finds no room in the storage. *)
Definition refused (eng : engine) (storage : gmap string string)
    (token : value) (e : exn) : Prop :=
  truthy token = true /\
  (to_string eng token = Throw e \/
   exists text,
     to_string eng token = Return text /\
     storage_accepts eng storage "devtask_token" text = false /\
     e = DOMException "QuotaExceededError" (quota_message eng)).

(** The spec's merge, header by header: the caller's value, else the
    default content type. *)
Definition caller_or_default (caller : gmap string string) (k : string)
    : option string :=
  match caller !! k with
  | Some v => Some v
  | None => if String.eqb k "Content-Type" then Some "application/json"
            else None
  end.

(** With a token stored, its bearer header wins for [Authorization]. *)
Definition merged_header (token : option string)
    (caller : gmap string string) (k : string) : option string :=
  match token with
  | Some t =>
      if String.eqb k "Authorization" then Some ("Bearer " ++ t)
      else caller_or_default caller k
  | None => caller_or_default caller k
  end.

(** The state a submit handler reaches before its first request: the
    default action prevented, the error element hidden. *)
Definition submitted (errorId : string) (st : state) : state :=
  with_document (alter (set_hidden true) errorId) (record PreventDefault st).

Definition delete_options : options :=
  {| opt_method := Some "DELETE"; opt_headers := None; opt_body := None |}.

(** A field of a task as the server sent it. *)
Definition field (task : value) (p : string) : value :=
  match task with
  | VObj kv => default VUndefined (assoc p kv)
  | _ => VUndefined
  end.

(** A task the dashboard can render: a string status, a number of hours
    (a number parsed from JSON is never NaN) and a title that converts to
    a string. *)
Definition renderable (eng : engine) (task : value) : Prop :=
  exists s x t,
    field task "status" = VStr s /\
    field task "time_logged" = VNum x /\ is_nan x = false /\
    text_of eng (field task "title") = Return t.

Definition hours (task : value) : float :=
  match field task "time_logged" with
  | VNum x => x
  | _ => 0%float
  end.

(** Two running totals that print alike: the same number, or the two
    zeros. *)
Definition same_total (a b : float) : Prop :=
  a = b \/ (a = 0%float /\ b = neg_zero).

(** What line 115 adds to the running total for a renderable task:
    [task.time_logged || 0]. *)
Definition counted (task : value) : float :=
  match js_or (field task "time_logged") (VNum 0%float) with
  | VNum y => y
  | _ => 0%float
  end.

(** The running total once the [forEach] is through. *)
Definition total_hours (tasks : list value) : float :=
  fold_left (fun acc t => (acc + counted t)%float) tasks 0%float.

(** The spec's totals: the tasks whose status is [done], and the sum of
    [time_logged] in list order. *)
Definition count_done (tasks : list value) : nat :=
  length (filter (fun t => is_string "done" (field t "status") = true) tasks).

Definition sum_hours (tasks : list value) : float :=
  fold_left (fun acc t => (acc + hours t)%float) tasks 0%float.

(** Every occurrence of [c] replaced: the spec's reading of the label. *)
Fixpoint replace_all (c d : ascii) (s : string) : string :=
  match s with
  | EmptyString => EmptyString
  | String a rest =>
      String (if Ascii.eqb a c then d else a) (replace_all c d rest)
  end.

Fixpoint occurrences (c : ascii) (s : string) : nat :=
  match s with
  | EmptyString => 0
  | String a rest =>
      (if Ascii.eqb a c then 1 else 0) + occurrences c rest
  end.

(** The text of the title cell and the status of a renderable task. *)
Definition title_text (eng : engine) (task : value) : string :=
  match text_of eng (field task "title") with
  | Return t => t
  | Throw _ => ""
  end.

Definition status_text (task : value) : string :=
  match field task "status" with
  | VStr s => s
  | _ => ""
  end.

(** The row of a task: title cell, status pill, hours, delete button. *)
Definition task_row (eng : engine) (task : value) (label hoursText : string)
    : node :=
  Elem "div" "task-item"
    [ Elem "div" "task-item-title" (text_nodes (title_text eng task)) None;
      Elem "div" ""
        [ Elem "span" ("task-status-pill task-status-" ++ status_text task)
            (text_nodes label) None ] None;
      Elem "div" "task-item-meta" (text_nodes (hoursText ++ "h logged")) None;
      Elem "div" "task-actions"
        [ Elem "button" "btn btn-ghost" [Text "Delete"]
            (Some (DeleteTask task)) ] None ]
    None.

(** The row [render_row] builds for a renderable task. *)
Definition rendered_row (eng : engine) (task : value) : node :=
  task_row eng task (replace_first "_" " " (status_text task))
    (toFixed eng 1 (hours task)).

(** What [loadTasks] leaves in the list and in the summary line for a
    list of renderable tasks. *)
Definition list_content (eng : engine) (tasks : list value) : list node :=
  match tasks with
  | [] => [Markup placeholder_markup]
  | _ :: _ => map (rendered_row eng) tasks
  end.

Definition stats_content (eng : engine) (tasks : list value) : list node :=
  match tasks with
  | [] => []
  | _ :: _ =>
      [Text (summary (length tasks) (count_done tasks)
               (toFixed eng 1 (total_hours tasks)))]
  end.

(** The state in which [loadTasks] starts its [forEach]: the answer
    fetched and parsed, the list emptied. *)
Definition list_cleared (w : world) (st : state) : state :=
  with_document (alter (set_content (markup_nodes "")) "task-list")
    (record ParseJson
       (record (Fetch (api_call w (localStorage st) "/tasks" no_options)) st)).

(** [st'] differs from [st] at most in the element [id], which is still
    there: no request, no prompt, no storage access happened in between. *)
Definition only_element (id : string) (st st' : state) : Prop :=
  localStorage st' = localStorage st /\ trace st' = trace st /\
  location st' = location st /\
  (forall j, j <> id -> document st' !! j = document st !! j) /\
  (is_Some (document st !! id) -> is_Some (document st' !! id)).

(** A computation that neither reads the environment nor writes the
    storage: it leaves the trace and the storage as they were. *)
Definition silent {A} (m : M A) : Prop :=
  forall st, localStorage (snd (m st)) = localStorage st /\
             trace (snd (m st)) = trace st.

(** ** Concrete engines, servers and pages to run the script on *)

Definition v8_message (t : type_error) : string :=
  match t with
  | ReadOfNullish base prop =>
      "Cannot read properties of " ++
      match base with VNull => "null" | _ => "undefined" end ++
      " (reading '" ++ prop ++ "')"
  | WriteOnNull prop =>
      "Cannot set properties of null (setting '" ++ prop ++ "')"
  | NotAFunction callee => callee ++ " is not a function"
  | NotPrimitive => "Cannot convert object to primitive value"
  end.

(** An engine for the runs below.  None of them prints a number through
    [Number::toString] or parses one, so both built-ins are stubs; the
    storage has room for every item. *)
Definition stub_engine : engine :=
  {| number_to_string := fun _ => "";
     parseFloat := fun _ => nan;
     type_error_message := v8_message;
     storage_accepts := fun _ _ _ => true;
     quota_message := "The quota has been exceeded." |}.

(** The same engine in a browser whose storage is full. *)
Definition full_storage : engine :=
  {| number_to_string := fun _ => "";
     parseFloat := fun _ => nan;
     type_error_message := v8_message;
     storage_accepts := fun _ _ _ => false;
     quota_message := "The quota has been exceeded." |}.

(** An object as [JSON.parse] makes it of [{"toString": 1}]: it has no
    string form. *)
Definition unprintable : value := VObj [("toString", VNum 1%float)].

Definition blank : element := {| hidden := false; content := [] |}.

(** A page with every element the script looks up. *)
Definition full_page : gmap string element :=
  {[ "login-error" := {| hidden := true; content := [] |};
     "signup-error" := {| hidden := true; content := [] |};
     "task-list" := blank;
     "task-stats" := blank ]}.

Definition page (storage : gmap string string) : state :=
  {| localStorage := storage; document := full_page; location := "/";
     trace := [] |}.

Definition answer (code : Z) (v : value) : fetch_result :=
  Responded {| status := code; payload := Json v |}.

Definition someone : auth_form :=
  {| email := "a@b.c"; password := "secret" |}.

(** Registration works, the login that follows is refused. *)
Definition refusing_login : world :=
  {| js := stub_engine;
     server := fun _ req =>
       if String.eqb (url req) "/auth/register"
       then answer 201 (VObj [("id", VStr "u1")])
       else answer 401 (VObj [("detail", VStr "Invalid credentials")]);
     user := fun _ _ => true |}.

(** Every request is answered with the same status and body. *)
Definition always (code : Z) (v : value) : world :=
  {| js := stub_engine;
     server := fun _ _ => answer code v;
     user := fun _ _ => true |}.

(** The same server in a browser whose storage is full. *)
Definition crowded (code : Z) (v : value) : world :=
  {| js := full_storage;
     server := fun _ _ => answer code v;
     user := fun _ _ => true |}.

(** The two tasks of the spec's example. *)
Definition example_tasks : list value :=
  [ VObj [("title", VStr "A"); ("status", VStr "done");
          ("time_logged", VNum 2.25%float)];
    VObj [("title", VStr "B"); ("status", VStr "todo");
          ("time_logged", VNum 1.0%float)] ].

Definition review_task : value :=
  VObj [("id", VStr "7"); ("title", VStr "Ship it");
        ("status", VStr "in_progress"); ("time_logged", VNum 1.5%float)].

Definition unlogged_task : value :=
  VObj [("id", VStr "3"); ("title", VStr "Plan"); ("status", VStr "todo")].

(** A server that deletes what it is asked to and lists one task; the
    user confirms. *)
Definition tracker : world :=
  {| js := stub_engine;
     server := fun _ req =>
       match method req with
       | Some "DELETE" =>
           Responded {| status := 204; payload := Malformed "no content" |}
       | _ => answer 200 (VObj [("items", VArr [review_task])])
       end;
     user := fun _ _ => true |}.

(** ** Wiring (lines 183-214) *)

(** The functions the script registers as listeners. *)
Inductive callback :=
| HandleLogin
| HandleSignup
| HandleNewTask
| LogoutClick.

(** One [addEventListener] call that took effect: the element, the event
    type and the function. *)
Record registration := {
  target : string;
  event_type : string;
  listening : callback;
}.

(** The page together with the listeners registered on its elements. *)
Record browser := {
  window : state;
  registered : list registration;
}.

Definition W (A : Type) : Type := browser -> outcome A * browser.

Definition retW {A} (a : A) : W A := fun b => (Return a, b).

Definition bindW {A B} (m : W A) (k : A -> W B) : W B :=
  fun b =>
    match m b with
    | (Return a, b') => k a b'
    | (Throw e, b') => (Throw e, b')
    end.

Notation "'let+' x ':=' m 'in' k" := (bindW m (fun x => k))
  (at level 10, x name, m at level 100, k at level 200).

(** A computation on the page, run in the browser. *)
Definition on_page {A} (m : M A) : W A :=
  fun b =>
    match m (window b) with
    | (r, st') => (r, {| window := st'; registered := registered b |})
    end.

Definition callback_eqb (f g : callback) : bool :=
  match f, g with
  | HandleLogin, HandleLogin | HandleSignup, HandleSignup
  | HandleNewTask, HandleNewTask | LogoutClick, LogoutClick => true
  | _, _ => false
  end.

Definition registration_eqb (r1 r2 : registration) : bool :=
  String.eqb (target r1) (target r2) &&
  String.eqb (event_type r1) (event_type r2) &&
  callback_eqb (listening r1) (listening r2).

(** Whether registering [r] again is a no-op: the same function on the
    same element for the same event is registered once.  The logout
    listener is an arrow function created by the call, hence new each
    time. *)
Definition already_registered (r : registration) (l : list registration)
    : bool :=
  match listening r with
  | LogoutClick => false
  | _ => existsb (registration_eqb r) l
  end.

Section Wiring.
Variable w : world.

(** [h.addEventListener(type, f)] *)
Definition addEventListener (h : handle) (type : string) (f : callback)
    : W unit :=
  match h with
  | None => on_page (engine_throws w (ReadOfNullish VNull "addEventListener"))
  | Some id =>
      fun b =>
        let r := {| target := id; event_type := type; listening := f |} in
        (Return tt,
         {| window := window b;
            registered := if already_registered r (registered b)
                          then registered b
                          else registered b ++ [r] |})
  end.

Definition initAuthPages : W unit :=
  let+ loginForm := on_page (getElementById "login-form") in
  let+ _ := match loginForm with
            | Some _ => addEventListener loginForm "submit" HandleLogin
            | None => retW tt
            end in
  let+ signupForm := on_page (getElementById "signup-form") in
  match signupForm with
  | Some _ => addEventListener signupForm "submit" HandleSignup
  | None => retW tt
  end.

Definition initDashboard : W unit :=
  let+ form := on_page (getElementById "new-task-form") in
  let+ _ := match form with
            | Some _ =>
                let+ _ := addEventListener form "submit" HandleNewTask in
                on_page (detached (loadTasks w))
            | None => retW tt
            end in
  let+ logoutBtn := on_page (getElementById "logout-btn") in
  match logoutBtn with
  | Some _ => addEventListener logoutBtn "click" LogoutClick
  | None => retW tt
  end.

(** The listener of the window's [DOMContentLoaded] event (lines 211-214). *)
Definition DOMContentLoaded : W unit :=
  let+ _ := initAuthPages in
  initDashboard.
End Wiring.

(** ** Definitions for the properties of the whole script *)

(** [st'] differs from [st] at most in the trace and in the two elements
    of the dashboard, and no element disappeared. *)
Definition dashboard_only (st st' : state) : Prop :=
  localStorage st' = localStorage st /\ location st' = location st /\
  (forall j, j <> "task-list" -> j <> "task-stats" ->
             document st' !! j = document st !! j) /\
  (forall j, is_Some (document st !! j) -> is_Some (document st' !! j)).

Definition tidy {A} (m : M A) : Prop :=
  forall st, dashboard_only st (snd (m st)).

(** A reference to one of the two dashboard elements, or [null]. *)
Definition dashboard_handle (h : handle) : Prop :=
  h = None \/ h = Some "task-list" \/ h = Some "task-stats".

(** What [getElementById] answers for an id on a page. *)
Definition handle_of (st : state) (id : string) : handle :=
  match document st !! id with
  | Some _ => Some id
  | None => None
  end.

Definition present (st : state) (id : string) : bool :=
  match document st !! id with
  | Some _ => true
  | None => false
  end.

Definition listens (id type : string) (f : callback) : registration :=
  {| target := id; event_type := type; listening := f |}.

(** The registrations a page load makes on a page, read off lines
    183-209: one per element that is there. *)
Definition wiring_of (st : state) : list registration :=
  (if present st "login-form"
   then [listens "login-form" "submit" HandleLogin] else []) ++
  (if present st "signup-form"
   then [listens "signup-form" "submit" HandleSignup] else []) ++
  (if present st "new-task-form"
   then [listens "new-task-form" "submit" HandleNewTask] else []) ++
  (if present st "logout-btn"
   then [listens "logout-btn" "click" LogoutClick] else []).

(** A task the server sent without an id. *)
Definition task_without_id : value :=
  VObj [("title", VStr "Plan"); ("status", VStr "todo");
        ("time_logged", VNum 0.5%float)].

Definition page_without_stats : state :=
  {| localStorage := ∅;
     document := {[ "task-list" := blank ]};
     location := "/"; trace := [] |}.

Definition offline : world :=
  {| js := stub_engine;
     server := fun _ _ => NetworkError "Failed to fetch";
     user := fun _ _ => true |}.

Definition empty_created : world :=
  {| js := stub_engine;
     server := fun _ _ =>
       Responded {| status := 201;
                    payload := Malformed "Unexpected end of JSON input" |};
     user := fun _ _ => true |}.

Definition no_content : world :=
  {| js := stub_engine;
     server := fun _ _ =>
       Responded {| status := 204; payload := Malformed "no content" |};
     user := fun _ _ => true |}.


Ltac wire :=
  cbv beta iota zeta delta
    [bindW on_page getElementById retW addEventListener window registered
     already_registered listening existsb registration_eqb target event_type
     callback_eqb andb orb app listens String.eqb Ascii.eqb Bool.eqb].

(** * Properties *)

Lemma apiRequest_outcome (w : world) (path : string) (opts : options)
    (st : state) :
  apiRequest w path opts st =
  let req := api_call w (localStorage st) path opts in
  api_outcome (js w) (server w (trace st) req) (record (Fetch req) st).
Proof.
  unfold apiRequest, api_outcome, api_call. run.
  destruct (server w (trace st) _) as [why | res]; [reflexivity |].
  destruct (negb (ok res)) eqn:Hok.
  - unfold failure, detail_of.
    destruct (payload res) as [why | data]; [reflexivity |].
    destruct data; try reflexivity.
    cbn [get_prop]. unfold js_or.
    destruct (assoc "detail" props) as [d |]; cbn; [| reflexivity].
    destruct (truthy d); [| reflexivity].
    destruct (to_string (js w) d); reflexivity.
  - destruct (status res =? 204)%Z; [reflexivity |].
    destruct (payload res); reflexivity.
Qed.

(** The state [apiRequest] leaves differs from the one it started in only
    by the trace, which gains the [fetch] and at most one parse. *)
Lemma api_outcome_frame (eng : engine) (answer : fetch_result) (st1 : state) :
  let st' := snd (api_outcome eng answer st1) in
  localStorage st' = localStorage st1 /\ document st' = document st1 /\
  location st' = location st1 /\
  (trace st' = trace st1 \/ trace st' = (trace st1 ++ [ParseJson])%list).
Proof.
  unfold api_outcome.
  destruct answer as [why | res]; cbn; [tauto |].
  destruct (negb (ok res)); cbn; [tauto |].
  destruct (status res =? 204)%Z; cbn; [tauto |].
  destruct (payload res); cbn; tauto.
Qed.

Lemma fetches_app (t1 t2 : list event) :
  fetches (t1 ++ t2)%list = (fetches t1 ++ fetches t2)%list.
Proof.
  induction t1 as [| ev t1 IH]; [reflexivity |].
  destruct ev; cbn; rewrite IH; reflexivity.
Qed.

Lemma parses_app (t1 t2 : list event) :
  parses (t1 ++ t2) = parses t1 + parses t2.
Proof.
  induction t1 as [| ev t1 IH]; [reflexivity |].
  destruct ev; cbn; rewrite IH; reflexivity.
Qed.

Lemma apiRequest_frame (w : world) (path : string) (opts : options)
    (st : state) :
  let st' := snd (apiRequest w path opts st) in
  let req := api_call w (localStorage st) path opts in
  localStorage st' = localStorage st /\ document st' = document st /\
  location st' = location st /\
  (trace st' = (trace st ++ [Fetch req])%list \/
   trace st' = (trace st ++ [Fetch req; ParseJson])%list).
Proof.
  cbv zeta. rewrite apiRequest_outcome. cbv zeta.
  destruct (api_outcome_frame (js w)
              (server w (trace st) (api_call w (localStorage st) path opts))
              (record (Fetch (api_call w (localStorage st) path opts)) st))
    as (Hs & Hd & Hl & Ht).
  rewrite Hs, Hd, Hl. repeat split.
  destruct Ht as [Ht | Ht]; rewrite Ht; cbn; [left | right]; try reflexivity.
  rewrite <- app_assoc. reflexivity.
Qed.

Lemma lookup_union_first (a b : gmap string string) (k : string) :
  (a ∪ b) !! k = match a !! k with
                 | Some v => Some v
                 | None => b !! k
                 end.
Proof.
  rewrite lookup_union.
  destruct (a !! k), (b !! k); reflexivity.
Qed.

Lemma lookup_content_type (k : string) :
  ({[ "Content-Type" := "application/json" ]} : gmap string string) !! k =
  if String.eqb k "Content-Type" then Some "application/json" else None.
Proof.
  destruct (String.eqb_spec k "Content-Type") as [-> | Hne].
  - apply lookup_singleton_eq.
  - apply lookup_singleton_ne. congruence.
Qed.

Lemma request_headers_lookup (w : world) (storage : gmap string string)
    (caller : option (gmap string string)) (k : string) :
  request_headers w (storage !! "devtask_token") caller !! k =
  merged_header (stored_token storage) (default ∅ caller) k.
Proof.
  unfold request_headers, Object_assign, stored_token, merged_header,
    caller_or_default.
  cbn [fold_left].
  rewrite !lookup_union_first, lookup_content_type.
  destruct (storage !! "devtask_token") as [t |]; cbn [item_value truthy].
  - destruct (String.eqb t ""); cbn [negb].
    + rewrite lookup_empty. reflexivity.
    + cbn [prim_string].
      destruct (String.eqb_spec k "Authorization") as [-> | Hne].
      * rewrite lookup_singleton_eq. reflexivity.
      * rewrite lookup_singleton_ne by congruence. reflexivity.
  - rewrite lookup_empty. reflexivity.
Qed.

(** ** Authentication *)

Lemma document_record (ev : event) (st : state) :
  document (record ev st) = document st.
Proof. reflexivity. Qed.

Lemma storage_with_document (f : gmap string element -> gmap string element)
    (st : state) :
  localStorage (with_document f st) = localStorage st.
Proof. reflexivity. Qed.

Lemma storage_record (ev : event) (st : state) :
  localStorage (record ev st) = localStorage st.
Proof. reflexivity. Qed.

Lemma apiRequest_keeps (w : world) (path : string) (opts : options)
    (st st' : state) (r : outcome value) :
  apiRequest w path opts st = (r, st') ->
  localStorage st' = localStorage st /\ document st' = document st /\
  location st' = location st.
Proof.
  intros H. pose proof (apiRequest_frame w path opts st) as F.
  cbv zeta in F. rewrite H in F. cbn [snd] in F. tauto.
Qed.

Lemma shown_error (m : gmap string element) (errorId msg : string)
    (el : element) :
  m !! errorId = Some el ->
  alter (set_hidden false) errorId
    (alter (set_content (text_nodes msg)) errorId
       (alter (set_hidden true) errorId m)) !! errorId =
  Some {| hidden := false; content := text_nodes msg |}.
Proof.
  intros H. rewrite !lookup_alter_eq, H. reflexivity.
Qed.

(** The two ways [handleLogin] can go once the error element is there. *)
Lemma handleLogin_run (w : world) (form : auth_form) (st : state)
    (el : element) :
  document st !! "login-error" = Some el ->
  handleLogin w form st =
  try_catch
    (let* data := apiRequest w "/auth/login" (post (credentials form)) in
     let* token := lift (get_prop (js w) data "access_token") in
     let* _ := setToken w token in
     navigate "/static/dashboard.html")
    (show_error w (Some "login-error")) (submitted "login-error" st).
Proof.
  intros Hel. unfold handleLogin, submitted.
  unfold bind at 1. unfold emit at 1.
  unfold bind at 1. unfold getElementById at 1.
  rewrite document_record, Hel. reflexivity.
Qed.

Lemma handleSignup_run (w : world) (form : auth_form) (st : state)
    (el : element) :
  document st !! "signup-error" = Some el ->
  handleSignup w form st =
  try_catch
    (let* _ := apiRequest w "/auth/register" (post (credentials form)) in
     let* login := apiRequest w "/auth/login" (post (credentials form)) in
     let* token := lift (get_prop (js w) login "access_token") in
     let* _ := setToken w token in
     navigate "/static/dashboard.html")
    (show_error w (Some "signup-error")) (submitted "signup-error" st).
Proof.
  intros Hel. unfold handleSignup, submitted.
  unfold bind at 1. unfold emit at 1.
  unfold bind at 1. unfold getElementById at 1.
  rewrite document_record, Hel. reflexivity.
Qed.

(** What [show_error] leaves behind. *)
Lemma show_error_run (w : world) (id : string) (err : exn) (st : state) :
  show_error w (Some id) err st =
  (Return tt,
   with_document (alter (set_hidden false) id)
     (with_document (alter (set_content (text_nodes (message err))) id) st)).
Proof. reflexivity. Qed.

(** *** What [setToken] does *)

Lemma setToken_spec (w : world) (token : value) (st : state) :
  (truthy token = false /\
   setToken w token st =
     (Return tt, with_storage (delete "devtask_token") st)) \/
  (exists text,
     storable (js w) (localStorage st) token text /\
     setToken w token st =
       (Return tt, with_storage (insert "devtask_token" text) st)) \/
  (exists e,
     refused (js w) (localStorage st) token e /\
     setToken w token st = (Throw e, st)).
Proof.
  unfold setToken, setItem, removeItem, storable, refused, bind, lift.
  destruct (truthy token); [| left; auto].
  right. destruct (to_string (js w) token) as [text | e].
  - destruct (storage_accepts (js w) (localStorage st) "devtask_token" text)
      eqn:Hroom.
    + left. exists text. auto.
    + right. eexists. split; [| reflexivity]. split; [reflexivity |].
      right. exists text. auto.
  - right. exists e. auto.
Qed.

Lemma setToken_stores (w : world) (token : value) (text : string)
    (st : state) :
  storable (js w) (localStorage st) token text ->
  setToken w token st =
  (Return tt, with_storage (insert "devtask_token" text) st).
Proof.
  intros (Htruthy & Htext & Hroom).
  unfold setToken, setItem, bind, lift. rewrite Htruthy, Htext, Hroom.
  reflexivity.
Qed.

(** [handleLogin] once the answer is in and its [access_token] read. *)
Lemma handleLogin_answered (w : world) (form : auth_form) (st st2 : state)
    (el : element) (data token : value) :
  document st !! "login-error" = Some el ->
  apiRequest w "/auth/login" (post (credentials form))
    (submitted "login-error" st) = (Return data, st2) ->
  get_prop (js w) data "access_token" = Return token ->
  handleLogin w form st =
  match setToken w token st2 with
  | (Return _, st3) =>
      (Return tt,
       record (Navigate "/static/dashboard.html")
         (with_location "/static/dashboard.html" st3))
  | (Throw e, st3) => show_error w (Some "login-error") e st3
  end.
Proof.
  intros Hel Hreq Htoken. rewrite (handleLogin_run w form st el Hel).
  unfold try_catch. unfold bind at 1. rewrite Hreq.
  unfold bind at 1. unfold lift at 1. rewrite Htoken.
  unfold bind at 1. destruct (setToken w token st2) as [[[] | e] st3];
    reflexivity.
Qed.


(** C1, as amended: when registration succeeds and the login that follows
    throws, [handleSignup] leaves the storage as it found it (so no token
    is stored when none was stored before) and shows the login error's
    message in the [signup-error] element. *)
Theorem handleSignup_login_failure (w : world) (form : auth_form)
    (st st2 st3 : state) (el : element) (created : value) (err : exn) :
  document st !! "signup-error" = Some el ->
  apiRequest w "/auth/register" (post (credentials form))
    (submitted "signup-error" st) = (Return created, st2) ->
  apiRequest w "/auth/login" (post (credentials form)) st2 = (Throw err, st3) ->
  exists st',
    handleSignup w form st = (Return tt, st') /\
    localStorage st' = localStorage st /\
    (localStorage st !! "devtask_token" = None ->
     localStorage st' !! "devtask_token" = None) /\
    document st' !! "signup-error" =
      Some {| hidden := false; content := text_nodes (message err) |} /\
    location st' = location st.
Proof.
  intros Hel Hreg Hlogin.
  destruct (apiRequest_keeps _ _ _ _ _ _ Hreg) as (Hs2 & Hd2 & Hl2).
  destruct (apiRequest_keeps _ _ _ _ _ _ Hlogin) as (Hs3 & Hd3 & Hl3).
  unfold handleSignup. run. rewrite document_record, Hel. cbv beta iota.
  fold (submitted "signup-error" st). rewrite Hreg. cbv beta iota.
  rewrite Hlogin. cbv beta iota.
  eexists. split; [reflexivity |].
  cbn [localStorage document location with_document].
  rewrite Hs3, Hs2, Hd3, Hd2, Hl3, Hl2. cbn.
  repeat split; auto.
  apply shown_error with (el := el). exact Hel.
Qed.

Lemma handleSignup_login_failure_witness :
  exists st',
    handleSignup refusing_login someone (page ∅) = (Return tt, st') /\
    localStorage st' = ∅ /\
    (localStorage (page ∅) !! "devtask_token" = None ->
     localStorage st' !! "devtask_token" = None) /\
    document st' !! "signup-error" =
      Some {| hidden := false;
              content := [Text "Invalid credentials"] |} /\
    location st' = "/".
Proof.
  pose (st2 := snd (apiRequest refusing_login "/auth/register"
                      (post (credentials someone))
                      (submitted "signup-error" (page ∅)))).
  pose (st3 := snd (apiRequest refusing_login "/auth/login"
                      (post (credentials someone)) st2)).
  apply (handleSignup_login_failure refusing_login someone (page ∅) st2 st3
           {| hidden := true; content := [] |} (VObj [("id", VStr "u1")])
           (Error "Invalid credentials")).
  - reflexivity.
  - vm_compute. reflexivity.
  - vm_compute. reflexivity.
Defined.

(** C1, as stated, fails when a token was stored before: registration
    succeeds, the login throws, and the old token is still there. *)
Lemma handleSignup_keeps_prior_token :
  let st := page {[ "devtask_token" := "old" ]} in
  let payload := post (credentials someone) in
  let after_register :=
    apiRequest refusing_login "/auth/register" payload
      (submitted "signup-error" st) in
  let after_login :=
    apiRequest refusing_login "/auth/login" payload (snd after_register) in
  let st' := snd (handleSignup refusing_login someone st) in
  fst after_register = Return (VObj [("id", VStr "u1")]) /\
  fst after_login = Throw (Error "Invalid credentials") /\
  fst (handleSignup refusing_login someone st) = Return tt /\
  localStorage st' !! "devtask_token" = Some "old" /\
  document st' !! "signup-error" =
    Some {| hidden := false; content := [Text "Invalid credentials"] |}.
Proof. vm_compute. repeat split; reflexivity. Qed.

Lemma apiRequest_success (w : world) (path : string) (opts : options)
    (st : state) (res : response) (data : value) :
  server w (trace st) (api_call w (localStorage st) path opts) =
    Responded res ->
  ok res = true -> status res <> 204%Z -> payload res = Json data ->
  apiRequest w path opts st =
  (Return data,
   record ParseJson (record (Fetch (api_call w (localStorage st) path opts)) st)).
Proof.
  intros Hsrv Hok Hst Hbody.
  rewrite apiRequest_outcome. cbv zeta. rewrite Hsrv.
  unfold api_outcome. rewrite Hok, Hbody. cbn [negb].
  destruct (Z.eqb_spec (status res) 204); [contradiction | reflexivity].
Qed.

Lemma storable_unique (eng : engine) (storage : gmap string string)
    (token : value) (t1 t2 : string) :
  storable eng storage token t1 -> storable eng storage token t2 -> t1 = t2.
Proof. intros (_ & H1 & _) (_ & H2 & _). congruence. Qed.

Lemma storable_not_refused (eng : engine) (storage : gmap string string)
    (token : value) (text : string) (e : exn) :
  storable eng storage token text -> refused eng storage token e -> False.
Proof.
  intros (_ & Htext & Hroom) (_ & [Hthrow | (t & Ht & Hfull & _)]);
    [congruence |].
  assert (t = text) by congruence. subst t. congruence.
Qed.

Lemma refused_unique (eng : engine) (storage : gmap string string)
    (token : value) (e1 e2 : exn) :
  refused eng storage token e1 -> refused eng storage token e2 -> e1 = e2.
Proof.
  intros (_ & [H1 | (t1 & H1 & _ & ->)]) (_ & [H2 | (t2 & H2 & _ & ->)]);
    congruence.
Qed.

(** The end of both handlers once the token is read: it is stored and
    the page moves on, or the write throws and the error is shown. *)
Lemma stored_or_shown (w : world) (token : value) (st3 : state)
    (errorId : string) :
  let run :=
    match setToken w token st3 with
    | (Return _, st4) =>
        (Return tt,
         record (Navigate "/static/dashboard.html")
           (with_location "/static/dashboard.html" st4))
    | (Throw e, st4) => show_error w (Some errorId) e st4
    end in
  fst run = Return tt /\
  (forall text, storable (js w) (localStorage st3) token text ->
     localStorage (snd run) !! "devtask_token" = Some text /\
     location (snd run) = "/static/dashboard.html") /\
  (truthy token = false ->
     localStorage (snd run) !! "devtask_token" = None /\
     location (snd run) = "/static/dashboard.html") /\
  (forall e, refused (js w) (localStorage st3) token e ->
     localStorage (snd run) = localStorage st3 /\
     location (snd run) = location st3 /\
     document (snd run) =
       alter (set_hidden false) errorId
         (alter (set_content (text_nodes (message e))) errorId
            (document st3))) /\
  fetches (trace (snd run)) = fetches (trace st3).
Proof.
  cbv zeta.
  assert (Hnav : forall t, fetches (t ++ [Navigate "/static/dashboard.html"])
                           = fetches t).
  { intros t. rewrite fetches_app. cbn. apply app_nil_r. }
  destruct (setToken_spec w token st3)
    as [[Hfalsy Hrun] | [(text & Hs & Hrun) | (e & Hr & Hrun)]];
    rewrite Hrun; [| | rewrite show_error_run]; cbn [fst snd];
    cbn [localStorage location trace document record with_location
         with_storage with_document].
  - split; [reflexivity |].
    split; [intros text0 (Htruthy & _); congruence |].
    split; [intros _; split; [apply lookup_delete_eq | reflexivity] |].
    split; [intros e (Htruthy & _); congruence | apply Hnav].
  - split; [reflexivity |].
    split; [intros text0 Hs0; rewrite (storable_unique _ _ _ _ _ Hs0 Hs);
            split; [apply lookup_insert_eq | reflexivity] |].
    split; [intros Hfalsy; destruct Hs as (Htruthy & _); congruence |].
    split; [intros e Hr; destruct (storable_not_refused _ _ _ _ _ Hs Hr) |
            apply Hnav].
  - split; [reflexivity |].
    split; [intros text0 Hs0;
            destruct (storable_not_refused _ _ _ _ _ Hs0 Hr) |].
    split; [intros Hfalsy; destruct Hr as (Htruthy & _); congruence |].
    split; [| reflexivity].
    intros e0 Hr0. rewrite (refused_unique _ _ _ _ _ Hr0 Hr). auto.
Qed.

(** C8, as amended: after a successful login (a 2xx answer other than 204
    whose body is a JSON value with fields), [handleLogin] ends without
    throwing.  When the answer's [access_token] is truthy, has a string
    form and the storage has room for it, the stored token is that
    string (the [access_token] itself when it is a non-empty string) and
    the page moves to the dashboard.  When the [access_token] is empty,
    missing or otherwise falsy, the stored token is removed and the page
    moves to the dashboard.  In both cases what was stored before is
    gone.  When the [access_token] is truthy but has no string form, or
    the storage has no room for it, storing it throws into the handler's
    [catch]: the storage and the location stay as they were and the
    error is shown in the [login-error] element. *)
Theorem handleLogin_success (w : world) (form : auth_form) (st : state)
    (el : element) (res : response) (data token : value) :
  document st !! "login-error" = Some el ->
  server w (trace (submitted "login-error" st))
    (api_call w (localStorage st) "/auth/login" (post (credentials form))) =
    Responded res ->
  ok res = true -> status res <> 204%Z -> payload res = Json data ->
  get_prop (js w) data "access_token" = Return token ->
  exists st',
    handleLogin w form st = (Return tt, st') /\
    (forall text, storable (js w) (localStorage st) token text ->
       localStorage st' !! "devtask_token" = Some text /\
       location st' = "/static/dashboard.html") /\
    (forall t, token = VStr t -> t <> "" ->
       storage_accepts (js w) (localStorage st) "devtask_token" t = true ->
       localStorage st' !! "devtask_token" = Some t) /\
    (truthy token = false ->
       localStorage st' !! "devtask_token" = None /\
       location st' = "/static/dashboard.html") /\
    (forall e, refused (js w) (localStorage st) token e ->
       localStorage st' = localStorage st /\
       location st' = location st /\
       document st' !! "login-error" =
         Some {| hidden := false; content := text_nodes (message e) |}).
Proof.
  intros Hel Hsrv Hok Hst Hbody Htok.
  pose proof (apiRequest_success w "/auth/login" (post (credentials form))
                (submitted "login-error" st) res data Hsrv Hok Hst Hbody)
    as Hreq.
  rewrite (handleLogin_answered w form st _ el data token Hel Hreq Htok).
  set (st2 := record ParseJson _).
  destruct (stored_or_shown w token st2 "login-error")
    as (Hr & Hstored & Hremoved & Hshown & _).
  cbv zeta in Hr, Hstored, Hremoved, Hshown.
  change (localStorage st2) with (localStorage st) in Hstored, Hshown.
  revert Hr Hstored Hremoved Hshown.
  destruct (setToken w token st2) as [[[] | e0] st3];
    [| rewrite show_error_run];
    cbn [fst snd]; intros Hr Hstored Hremoved Hshown;
    (eexists; split; [reflexivity |];
     split; [exact Hstored |]; split; [| split; [exact Hremoved |]]).
  1, 3: intros t -> Hne Hroom; apply Hstored;
    repeat split; [| exact Hroom]; cbn;
    destruct (String.eqb_spec t ""); [contradiction | reflexivity].
  1, 2: intros e Hre; destruct (Hshown e Hre) as (Hk & Hloc & Hdoc);
    split; [exact Hk |]; split; [exact Hloc |];
    rewrite Hdoc; apply shown_error with (el := el); exact Hel.
Qed.

Lemma handleLogin_success_witness :
  exists st',
    handleLogin (always 200 (VObj [("access_token", VStr "fresh")])) someone
      (page {[ "devtask_token" := "old" ]}) = (Return tt, st') /\
    localStorage st' !! "devtask_token" = Some "fresh" /\
    location st' = "/static/dashboard.html".
Proof.
  destruct (handleLogin_success
              (always 200 (VObj [("access_token", VStr "fresh")])) someone
              (page {[ "devtask_token" := "old" ]})
              {| hidden := true; content := [] |}
              {| status := 200;
                 payload := Json (VObj [("access_token", VStr "fresh")]) |}
              (VObj [("access_token", VStr "fresh")]) (VStr "fresh"))
    as (st' & Hrun & Hstored & _).
  - reflexivity.
  - reflexivity.
  - reflexivity.
  - discriminate.
  - reflexivity.
  - reflexivity.
  - exists st'. split; [exact Hrun |]. apply Hstored.
    repeat split; reflexivity.
Defined.

(** C8, as stated, fails on three successful logins.  An answer whose
    [access_token] is the empty string leaves the storage with no token
    at all rather than with that string.  An answer whose [access_token]
    has no string form, and an answer whose token finds no room in the
    storage, leave the token that was stored before in place: the error
    of the failed write is shown and the page stays where it was. *)
Lemma handleLogin_empty_access_token :
  let st := page {[ "devtask_token" := "old" ]} in
  let after w := snd (handleLogin w someone st) in
  let empty := always 200 (VObj [("access_token", VStr "")]) in
  let odd := always 200 (VObj [("access_token", unprintable)]) in
  let fresh := crowded 200 (VObj [("access_token", VStr "fresh")]) in
  (fst (handleLogin empty someone st) = Return tt /\
   location (after empty) = "/static/dashboard.html" /\
   localStorage (after empty) !! "devtask_token" = None /\
   localStorage (after empty) !! "devtask_token" <> Some "") /\
  (fst (handleLogin odd someone st) = Return tt /\
   localStorage (after odd) !! "devtask_token" = Some "old" /\
   location (after odd) = "/" /\
   content <$> document (after odd) !! "login-error" =
     Some [Text "Cannot convert object to primitive value"]) /\
  (fst (handleLogin fresh someone st) = Return tt /\
   localStorage (after fresh) !! "devtask_token" = Some "old" /\
   localStorage (after fresh) !! "devtask_token" <> Some "fresh" /\
   location (after fresh) = "/" /\
   content <$> document (after fresh) !! "login-error" =
     Some [Text "The quota has been exceeded."]).
Proof.
  vm_compute. repeat split; try reflexivity; discriminate.
Qed.

(** ** The API client *)

(** C2, as amended: for every answer with a non-2xx status [apiRequest]
    throws.  What it throws is an [Error] whose message is the body's
    [detail] field when the body is a JSON object whose [detail] is a
    non-empty string, the string form of [detail] when it is another
    truthy value that has one, and "Request failed" otherwise: when the
    body is not valid JSON, has no [detail], or has a [detail] that is
    falsy, such as the empty string.  A truthy [detail] that has no
    string form makes [apiRequest] throw the error of the failed
    conversion instead. *)
Theorem apiRequest_error_message (w : world) (path : string) (opts : options)
    (st : state) (res : response) :
  server w (trace st) (api_call w (localStorage st) path opts) =
    Responded res ->
  ok res = false ->
  exists e st',
    apiRequest w path opts st = (Throw e, st') /\
    e = failure (js w) (payload res) /\
    (forall s, detail_of (payload res) = Some (VStr s) -> s <> "" ->
               e = Error s) /\
    (forall d text, detail_of (payload res) = Some d -> truthy d = true ->
                    to_string (js w) d = Return text -> e = Error text) /\
    (forall d err, detail_of (payload res) = Some d -> truthy d = true ->
                   to_string (js w) d = Throw err -> e = err) /\
    (forall d, detail_of (payload res) = Some d -> truthy d = false ->
               e = Error "Request failed") /\
    (detail_of (payload res) = None -> e = Error "Request failed").
Proof.
  intros Hsrv Hok.
  rewrite apiRequest_outcome. cbv zeta. rewrite Hsrv.
  unfold api_outcome. rewrite Hok. cbn [negb].
  eexists _, _. split; [reflexivity |]. split; [reflexivity |].
  unfold failure. repeat split.
  - intros s -> Hne. cbn. destruct (String.eqb_spec s ""); [contradiction |].
    reflexivity.
  - intros d text -> -> ->. reflexivity.
  - intros d err -> -> ->. reflexivity.
  - intros d -> ->. reflexivity.
  - intros ->. reflexivity.
Qed.

Lemma apiRequest_error_message_witness :
  exists st',
    apiRequest (always 404 (VObj [("detail", VStr "Task not found")]))
      "/tasks/9" no_options (page ∅) = (Throw (Error "Task not found"), st').
Proof.
  destruct (apiRequest_error_message
              (always 404 (VObj [("detail", VStr "Task not found")]))
              "/tasks/9" no_options (page ∅)
              {| status := 404;
                 payload := Json (VObj [("detail", VStr "Task not found")]) |}
              eq_refl eq_refl) as (e & st' & Hrun & He & _).
  exists st'. rewrite Hrun, He. reflexivity.
Defined.

(** C2, as stated, fails on two bodies that are valid JSON and have a
    [detail].  For the empty string the message is the fallback, not the
    field.  For an object that has no string form no [Error] is built at
    all: [apiRequest] throws the [TypeError] of the conversion. *)
Lemma apiRequest_empty_detail :
  let refusal body :=
    {| js := stub_engine;
       server := fun _ _ => Responded {| status := 400; payload := body |};
       user := fun _ _ => true |} in
  let empty := Json (VObj [("detail", VStr "")]) in
  let odd := Json (VObj [("detail", unprintable)]) in
  ok {| status := 400; payload := empty |} = false /\
  detail_of empty = Some (VStr "") /\
  fst (apiRequest (refusal empty) "/auth/login" no_options (page ∅)) =
    Throw (Error "Request failed") /\
  VStr "Request failed" <> VStr "" /\
  detail_of odd = Some unprintable /\
  fst (apiRequest (refusal odd) "/auth/login" no_options (page ∅)) =
    Throw (TypeError "Cannot convert object to primitive value").
Proof. vm_compute. repeat split; try reflexivity; discriminate. Qed.

(** C9: a successful answer with status 204 makes [apiRequest] return
    [null], and the body is never parsed: whatever the body holds, the
    run adds the [fetch] to the trace and nothing else. *)
Theorem apiRequest_no_content (w : world) (path : string) (opts : options)
    (st : state) (res : response) :
  server w (trace st) (api_call w (localStorage st) path opts) =
    Responded res ->
  status res = 204%Z ->
  exists st',
    apiRequest w path opts st = (Return VNull, st') /\
    trace st' =
      (trace st ++ [Fetch (api_call w (localStorage st) path opts)])%list /\
    parses (trace st') = parses (trace st).
Proof.
  intros Hsrv Hst.
  rewrite apiRequest_outcome. cbv zeta. rewrite Hsrv.
  unfold api_outcome, ok. rewrite Hst. cbn.
  eexists. split; [reflexivity |]. split; [reflexivity |].
  cbn [trace record]. rewrite parses_app. cbn. lia.
Qed.

Lemma apiRequest_no_content_witness :
  exists st',
    apiRequest
      {| js := stub_engine;
         server := fun _ _ =>
           Responded {| status := 204; payload := Malformed "Unexpected end" |};
         user := fun _ _ => true |}
      "/tasks/3"
      {| opt_method := Some "DELETE"; opt_headers := None; opt_body := None |}
      (page ∅) = (Return VNull, st') /\
    parses (trace st') = 0.
Proof.
  destruct (apiRequest_no_content
              {| js := stub_engine;
                 server := fun _ _ =>
                   Responded {| status := 204;
                                payload := Malformed "Unexpected end" |};
                 user := fun _ _ => true |}
              "/tasks/3"
              {| opt_method := Some "DELETE"; opt_headers := None;
                 opt_body := None |}
              (page ∅)
              {| status := 204; payload := Malformed "Unexpected end" |}
              eq_refl eq_refl) as (st' & Hrun & _ & Hparses).
  exists st'. split; [exact Hrun | exact Hparses].
Defined.

(** C5: the request [apiRequest] sends carries, header by header, the
    merge of the default JSON content type, the caller's headers and, when
    a session token is stored, its bearer header; for [Authorization] the
    stored token's header is the one sent whatever the caller supplied. *)
Theorem apiRequest_headers (w : world) (path : string) (opts : options)
    (st : state) :
  let st' := snd (apiRequest w path opts st) in
  let req := api_call w (localStorage st) path opts in
  let caller := default ∅ (opt_headers opts) in
  fetches (trace st') = (fetches (trace st) ++ [req])%list /\
  (forall k, headers req !! k =
             merged_header (stored_token (localStorage st)) caller k) /\
  (forall k,
     merged_header None caller k =
       match caller !! k with
       | Some v => Some v
       | None => ({[ "Content-Type" := "application/json" ]}
                    : gmap string string) !! k
       end) /\
  (forall t, merged_header (Some t) caller "Authorization" =
             Some ("Bearer " ++ t)) /\
  (forall t k, k <> "Authorization" ->
     merged_header (Some t) caller k = merged_header None caller k).
Proof.
  cbv zeta. split; [| split; [| split; [| split]]].
  - destruct (apiRequest_frame w path opts st) as (_ & _ & _ & [Ht | Ht]);
      rewrite Ht, fetches_app; reflexivity.
  - intros k. apply request_headers_lookup.
  - intros k. unfold merged_header, caller_or_default.
    rewrite lookup_content_type. reflexivity.
  - intros t. reflexivity.
  - intros t k Hne. unfold merged_header.
    destruct (String.eqb_spec k "Authorization"); [contradiction |].
    reflexivity.
Qed.

Example bearer_header_wins :
  let st := page {[ "devtask_token" := "tok" ]} in
  let opts := {| opt_method := None;
                 opt_headers := Some {[ "Authorization" := "Basic abc";
                                        "Accept" := "text/plain" ]};
                 opt_body := None |} in
  let req := api_call (always 200 VNull) (localStorage st) "/tasks" opts in
  headers req !! "Authorization" = Some "Bearer tok" /\
  headers req !! "Accept" = Some "text/plain" /\
  headers req !! "Content-Type" = Some "application/json".
Proof. vm_compute. repeat split; reflexivity. Qed.

(** ** The dashboard *)

Lemma get_prop_field (eng : engine) (task : value) (p : string) (v : value) :
  field task p = v -> v <> VUndefined -> get_prop eng task p = Return v.
Proof.
  destruct task; cbn; intros <- Hv; try contradiction; reflexivity.
Qed.

Lemma renderable_object (eng : engine) (task : value) :
  renderable eng task -> exists kv, task = VObj kv.
Proof.
  intros (s & x & t & Hs & _). destruct task; try discriminate. eauto.
Qed.

Lemma js_add_numbers (eng : engine) (a b : float) :
  js_add eng (VNum a) (VNum b) = Return (VNum (a + b)%float).
Proof. reflexivity. Qed.

(** *** The two zeros in the running total

    Line 115 adds [task.time_logged || 0], which is [+0] for a
    [time_logged] of [-0]; the sum of the [time_logged] themselves can
    then be [-0] where the running total is [+0], and the two never
    differ otherwise. *)

Lemma zero_of_sign (x : float) (s : bool) :
  Prim2SF x = S754_zero s -> x = (if s then neg_zero else 0%float).
Proof.
  intros H. apply Prim2SF_inj. rewrite H. destruct s; reflexivity.
Qed.

Lemma is_zero_true (x : float) :
  is_zero x = true -> x = 0%float \/ x = neg_zero.
Proof.
  unfold is_zero. rewrite FloatAxioms.eqb_spec.
  change (Prim2SF zero) with (S754_zero false).
  destruct (Prim2SF x) as [s | s | | s m e] eqn:E; cbn.
  - intros _. destruct s; [right | left]; apply (zero_of_sign x _ E).
  - destruct s; discriminate.
  - discriminate.
  - destruct s; discriminate.
Qed.

Lemma is_zero_false (x : float) :
  is_zero x = false -> forall s, Prim2SF x <> S754_zero s.
Proof.
  unfold is_zero. rewrite FloatAxioms.eqb_spec.
  change (Prim2SF zero) with (S754_zero false).
  intros H s E. rewrite E in H. discriminate.
Qed.

Lemma add_zero_right (a z : float) (s : bool) :
  (forall s0, Prim2SF a <> S754_zero s0) -> Prim2SF z = S754_zero s ->
  (a + z)%float = a.
Proof.
  intros Ha Hz. apply Prim2SF_inj. rewrite add_spec, Hz.
  destruct (Prim2SF a) as [s0 | s0 | | s0 m e] eqn:E; try reflexivity.
  destruct (Ha s0 eq_refl).
Qed.

Lemma add_zero_left (z x : float) (s : bool) :
  Prim2SF z = S754_zero s -> (forall s0, Prim2SF x <> S754_zero s0) ->
  (z + x)%float = x.
Proof.
  intros Hz Hx. apply Prim2SF_inj. rewrite add_spec, Hz.
  destruct (Prim2SF x) as [s0 | s0 | | s0 m e] eqn:E; try reflexivity.
  destruct (Hx s0 eq_refl).
Qed.

Lemma counted_number (task : value) (x : float) :
  field task "time_logged" = VNum x -> is_nan x = false ->
  counted task = (if is_zero x then 0%float else x) /\ hours task = x.
Proof.
  intros Hx Hnan. unfold counted, hours, js_or. rewrite Hx.
  cbn [truthy]. rewrite Hnan, orb_false_r.
  destruct (is_zero x); split; reflexivity.
Qed.

Lemma same_total_step (a b x : float) :
  same_total a b ->
  same_total (a + (if is_zero x then 0%float else x)) (b + x).
Proof.
  intros Hab. destruct (is_zero x) eqn:Hx.
  - destruct (is_zero_true x Hx) as [-> | ->].
    + destruct Hab as [-> | [-> ->]]; left; reflexivity.
    + destruct Hab as [-> | [-> ->]]; [| right; split; reflexivity].
      destruct (Prim2SF b) as [s | s | | s m e] eqn:E.
      * rewrite (zero_of_sign b s E).
        destruct s; [right; split; reflexivity | left; reflexivity].
      * left. rewrite (add_zero_right b 0 false), (add_zero_right b neg_zero true);
          try reflexivity; intros s0; rewrite E; discriminate.
      * left. rewrite (add_zero_right b 0 false), (add_zero_right b neg_zero true);
          try reflexivity; intros s0; rewrite E; discriminate.
      * left. rewrite (add_zero_right b 0 false), (add_zero_right b neg_zero true);
          try reflexivity; intros s0; rewrite E; discriminate.
  - destruct Hab as [-> | [-> ->]]; left; [reflexivity |].
    rewrite (add_zero_left 0 x false), (add_zero_left neg_zero x true);
      try reflexivity; apply is_zero_false; exact Hx.
Qed.

(** The running total and the sum of the [time_logged] print alike. *)
Lemma total_hours_sum (eng : engine) (tasks : list value) :
  Forall (renderable eng) tasks ->
  same_total (total_hours tasks) (sum_hours tasks).
Proof.
  unfold total_hours, sum_hours.
  assert (Hstart : same_total 0%float 0%float) by (left; reflexivity).
  revert Hstart. generalize 0%float at 1 3. generalize 0%float.
  induction tasks as [| task rest IH]; intros b a Hab Hwf; [exact Hab |].
  inversion Hwf as [| ? ? (s & x & t & _ & Hx & Hnan & _) Hrest]; subst.
  cbn [fold_left]. apply IH; [| exact Hrest].
  destruct (counted_number task x Hx Hnan) as [-> ->].
  apply same_total_step. exact Hab.
Qed.

Lemma toFixed_same_total (eng : engine) (f : nat) (a b : float) :
  same_total a b -> toFixed eng f a = toFixed eng f b.
Proof. intros [-> | [-> ->]]; reflexivity. Qed.

(** One pass of the [forEach] callback over a renderable task. *)
Lemma render_row_ok (w : world) (id : string) (task : value)
    (total : float) (done : nat) (st : state) :
  renderable (js w) task ->
  render_row w (Some id) task (VNum total, done) st =
  (Return
     (VNum (total + counted task)%float,
      if is_string "done" (field task "status") then S done else done),
   with_document (alter (append_content (rendered_row (js w) task)) id) st).
Proof.
  intros Hwf. destruct (renderable_object _ task Hwf) as [kv ->].
  destruct Hwf as (s & x & t & Hs & Hx & _ & Ht).
  unfold render_row, rendered_row, hours, counted, task_row, title_text,
    status_text.
  run. cbn [get_prop]. cbn [field] in Hs, Hx, Ht |- *.
  rewrite Hs, Hx, Ht. cbv beta iota.
  assert (Hor : exists y, js_or (VNum x) (VNum 0%float) = VNum y).
  { unfold js_or. destruct (truthy (VNum x)); eauto. }
  destruct Hor as [y Hor]. rewrite Hor, js_add_numbers.
  cbn [to_string prim_string call_replace call_toFixed]. cbv beta iota.
  cbn [appendChild set_text set_className addClickListener createElement app].
  reflexivity.
Qed.

Lemma count_done_cons (task : value) (rest : list value) :
  count_done (task :: rest) =
  (if is_string "done" (field task "status") then 1 else 0) + count_done rest.
Proof.
  unfold count_done. rewrite filter_cons.
  destruct (is_string "done" (field task "status")); reflexivity.
Qed.

(** The whole [forEach]: one row appended per task, nothing else touched. *)
Lemma for_each_rows (w : world) (id : string) (tasks : list value) :
  forall (total : float) (done : nat) (st : state) (el : element),
  Forall (renderable (js w)) tasks ->
  document st !! id = Some el ->
  exists st',
    for_each (render_row w (Some id)) tasks (VNum total, done) st =
      (Return (VNum (fold_left (fun acc t => (acc + counted t)%float)
                       tasks total),
               done + count_done tasks), st') /\
    document st' !! id =
      Some {| hidden := hidden el;
              content := content el ++ map (rendered_row (js w)) tasks |} /\
    (forall j, j <> id -> document st' !! j = document st !! j) /\
    localStorage st' = localStorage st /\ trace st' = trace st /\
    location st' = location st.
Proof.
  induction tasks as [| task rest IH]; intros total done st el Hwf Hel.
  - exists st. cbn. rewrite Nat.add_0_r, app_nil_r.
    destruct el. repeat split; auto.
  - inversion Hwf as [| ? ? Htask Hrest]; subst.
    cbn [for_each]. unfold bind at 1. rewrite render_row_ok by assumption.
    set (st1 := with_document _ st).
    assert (Hel1 : document st1 !! id =
                   Some (append_content (rendered_row (js w) task) el)).
    { subst st1. cbn [document with_document].
      rewrite lookup_alter_eq, Hel. reflexivity. }
    destruct (IH (total + counted task)%float
                (if is_string "done" (field task "status")
                 then S done else done) st1 _ Hrest Hel1)
      as (st' & Hrun & Hlist & Hother & Hs & Ht & Hl).
    exists st'. rewrite Hrun. split; [| repeat split].
    + rewrite count_done_cons. cbn [fold_left].
      destruct (is_string "done" (field task "status")); cbn [Nat.add].
      * replace (done + S (count_done rest)) with (S done + count_done rest)
          by lia.
        reflexivity.
      * reflexivity.
    + rewrite Hlist. cbn [append_content hidden content map].
      rewrite <- app_assoc. reflexivity.
    + intros j Hj. rewrite (Hother j Hj). subst st1.
      cbn [document with_document]. apply lookup_alter_ne. congruence.
    + rewrite Hs. reflexivity.
    + rewrite Ht. reflexivity.
    + rewrite Hl. reflexivity.
Qed.

Lemma text_nodes_summary (count done : nat) (h : string) :
  text_nodes (summary count done h) = [Text (summary count done h)].
Proof.
  unfold text_nodes, summary.
  destruct (pretty count ++ _) eqn:E; [| reflexivity].
  exfalso. destruct (pretty count); cbn in E; discriminate.
Qed.

Lemma loadTasks_rendered (w : world) (st : state) (lst sts : element)
    (res : response) (data : value) (tasks : list value) :
  document st !! "task-list" = Some lst ->
  document st !! "task-stats" = Some sts ->
  server w (trace st) (api_call w (localStorage st) "/tasks" no_options) =
    Responded res ->
  ok res = true -> status res <> 204%Z -> payload res = Json data ->
  get_prop (js w) data "items" = Return (VArr tasks) ->
  Forall (renderable (js w)) tasks ->
  exists st',
    loadTasks w st = (Return tt, st') /\
    document st' !! "task-list" =
      Some {| hidden := hidden lst;
              content := list_content (js w) tasks |} /\
    document st' !! "task-stats" =
      Some {| hidden := hidden sts;
              content := stats_content (js w) tasks |} /\
    localStorage st' = localStorage st /\
    trace st' =
      (trace st ++
       [Fetch (api_call w (localStorage st) "/tasks" no_options);
        ParseJson])%list.
Proof.
  intros Hlist Hstats Hsrv Hok Hst Hbody Hitems Hwf.
  unfold loadTasks, render_tasks, show_failure. run.
  rewrite Hlist, Hstats. cbv beta iota.
  rewrite (apiRequest_success w _ _ _ res data) by assumption.
  cbv beta iota. rewrite Hitems. cbv beta iota.
  set (st1 := with_document _ _).
  assert (Hlist1 : document st1 !! "task-list" =
                   Some {| hidden := hidden lst; content := [] |}).
  { subst st1. cbn [document with_document record].
    rewrite lookup_alter_eq, Hlist. reflexivity. }
  assert (Hstats1 : document st1 !! "task-stats" = Some sts).
  { subst st1. cbn [document with_document record].
    rewrite lookup_alter_ne by discriminate. exact Hstats. }
  assert (Htrace1 : trace st1 =
            (trace st ++
             [Fetch (api_call w (localStorage st) "/tasks" no_options);
              ParseJson])%list).
  { subst st1. cbn [trace with_document record].
    rewrite <- app_assoc. reflexivity. }
  assert (Hstore1 : localStorage st1 = localStorage st) by reflexivity.
  clearbody st1.
  destruct tasks as [| task rest].
  - cbn [no_length length Nat.eqb]. cbv beta iota.
    eexists. split; [reflexivity |].
    cbn [document with_document localStorage trace list_content stats_content].
    rewrite lookup_alter_ne by discriminate.
    rewrite !lookup_alter_eq, Hlist1.
    rewrite lookup_alter_ne by discriminate. rewrite Hstats1.
    repeat split; auto.
  - cbn [no_length length Nat.eqb]. cbv beta iota.
    destruct (for_each_rows w "task-list" (task :: rest) 0%float 0 st1 _
                Hwf Hlist1) as (st2 & Hrun & Hl2 & Hother & Hs2 & Ht2 & _).
    rewrite Hrun. cbv beta iota. cbn [call_toFixed]. cbv beta iota.
    eexists. split; [reflexivity |].
    cbn [document with_document localStorage trace list_content stats_content].
    rewrite lookup_alter_ne by discriminate. rewrite Hl2.
    rewrite lookup_alter_eq, (Hother "task-stats") by discriminate.
    rewrite Hstats1, Hs2, Ht2, Hstore1, Htrace1.
    cbn [fmap option_fmap option_map set_content hidden content app Nat.add].
    rewrite text_nodes_summary. repeat split; reflexivity.
Qed.

Lemma example_summary (eng : engine) :
  summary (length example_tasks) (count_done example_tasks)
    (toFixed eng 1 (sum_hours example_tasks)) =
  "2 tasks • 1 completed • 3.3h logged".
Proof. vm_compute. reflexivity. Qed.

(** C4, as amended: for a fetched list whose tasks each have a string
    status, a number for [time_logged] and a title that converts to a
    string, [loadTasks] renders the placeholder and an empty summary when
    the list is empty, and otherwise one row per task and the summary
    line made of the task count, the number of tasks whose status is
    [done] and the sum of [time_logged] with one decimal; for the spec's
    two tasks the line reads "2 tasks • 1 completed • 3.3h logged". *)
Theorem loadTasks_summary (w : world) (st : state) (lst sts : element)
    (res : response) (data : value) (tasks : list value) :
  document st !! "task-list" = Some lst ->
  document st !! "task-stats" = Some sts ->
  server w (trace st) (api_call w (localStorage st) "/tasks" no_options) =
    Responded res ->
  ok res = true -> status res <> 204%Z -> payload res = Json data ->
  get_prop (js w) data "items" = Return (VArr tasks) ->
  Forall (renderable (js w)) tasks ->
  exists st' lst' sts',
    loadTasks w st = (Return tt, st') /\
    document st' !! "task-list" = Some lst' /\
    document st' !! "task-stats" = Some sts' /\
    (tasks = [] ->
     content lst' = [Markup placeholder_markup] /\ content sts' = []) /\
    (tasks <> [] ->
     content lst' = map (rendered_row (js w)) tasks /\
     length (content lst') = length tasks /\
     content sts' =
       [Text (summary (length tasks) (count_done tasks)
                (toFixed (js w) 1 (sum_hours tasks)))]) /\
    (tasks = example_tasks ->
     content sts' = [Text "2 tasks • 1 completed • 3.3h logged"]).
Proof.
  intros Hlist Hstats Hsrv Hok Hst Hbody Hitems Hwf.
  destruct (loadTasks_rendered w st lst sts res data tasks)
    as (st' & Hrun & Hl & Hs & _); try assumption.
  pose proof (toFixed_same_total (js w) 1 _ _ (total_hours_sum _ _ Hwf))
    as Hsum.
  exists st', {| hidden := hidden lst; content := list_content (js w) tasks |},
    {| hidden := hidden sts; content := stats_content (js w) tasks |}.
  split; [exact Hrun |]. split; [exact Hl |]. split; [exact Hs |].
  cbn [content]. split; [| split].
  - intros ->. split; reflexivity.
  - intros Hne. destruct tasks as [| task rest]; [contradiction |].
    cbn [list_content stats_content]. rewrite Hsum.
    repeat split. apply length_map.
  - intros ->. cbn [stats_content example_tasks].
    change (VObj _ :: _) with example_tasks.
    rewrite Hsum, <- (example_summary (js w)).
    reflexivity.
Qed.

Lemma loadTasks_summary_witness :
  exists st' lst' sts',
    loadTasks (always 200 (VObj [("items", VArr example_tasks)])) (page ∅) =
      (Return tt, st') /\
    document st' !! "task-list" = Some lst' /\
    document st' !! "task-stats" = Some sts' /\
    length (content lst') = 2 /\
    content sts' = [Text "2 tasks • 1 completed • 3.3h logged"].
Proof.
  destruct (loadTasks_summary
              (always 200 (VObj [("items", VArr example_tasks)])) (page ∅)
              blank blank
              {| status := 200;
                 payload := Json (VObj [("items", VArr example_tasks)]) |}
              (VObj [("items", VArr example_tasks)]) example_tasks)
    as (st' & lst' & sts' & Hrun & Hl & Hs & _ & Hrows & Hex).
  - reflexivity.
  - reflexivity.
  - reflexivity.
  - reflexivity.
  - discriminate.
  - reflexivity.
  - reflexivity.
  - constructor; [| constructor; [| constructor]].
    + exists "done", 2.25%float, "A". repeat split; reflexivity.
    + exists "todo", 1.0%float, "B". repeat split; reflexivity.
  - exists st', lst', sts'. repeat split; try assumption.
    + apply Hrows. discriminate.
    + apply Hex. reflexivity.
Defined.

(** C4, as stated, fails on fetched lists of two tasks of which one
    lacks its [time_logged], lacks its [status], or has a title without a
    string form: rendering stops at that task, no row is left in the list,
    which shows the error instead, and the summary is blank. *)
Lemma loadTasks_stops_at_malformed_task :
  let shown tasks id :=
    content <$>
      document (snd (loadTasks (always 200 (VObj [("items", VArr tasks)]))
                       (page ∅))) !! id in
  let no_status :=
    VObj [("title", VStr "Plan"); ("time_logged", VNum 1%float)] in
  let no_title :=
    VObj [("title", unprintable); ("status", VStr "todo");
          ("time_logged", VNum 1%float)] in
  (shown [review_task; unlogged_task] "task-list" =
     Some [Markup
             "<p>Cannot read properties of undefined (reading 'toFixed')</p>"] /\
   shown [review_task; unlogged_task] "task-stats" = Some []) /\
  (shown [review_task; no_status] "task-list" =
     Some [Markup
             "<p>Cannot read properties of undefined (reading 'replace')</p>"] /\
   shown [review_task; no_status] "task-stats" = Some []) /\
  (shown [review_task; no_title] "task-list" =
     Some [Markup "<p>Cannot convert object to primitive value</p>"] /\
   shown [review_task; no_title] "task-stats" = Some []).
Proof. vm_compute. repeat split; reflexivity. Qed.

Lemma replace_first_once (c d : ascii) (s : string) :
  occurrences c s <= 1 -> replace_first c d s = replace_all c d s.
Proof.
  induction s as [| a rest IH]; [reflexivity |].
  cbn. destruct (Ascii.eqb a c); intros H.
  - f_equal. assert (H0 : occurrences c rest = 0) by lia.
    clear IH H. induction rest as [| b rest IH]; [reflexivity |].
    cbn in H0 |- *. destruct (Ascii.eqb b c); [discriminate |].
    f_equal. apply IH. exact H0.
  - f_equal. apply IH. exact H.
Qed.

Lemma text_nodes_hours (h : string) :
  text_nodes (h ++ "h logged") = [Text (h ++ "h logged")].
Proof.
  unfold text_nodes. destruct (h ++ "h logged") eqn:E; [| reflexivity].
  destruct h; discriminate.
Qed.

(** X28: what a row shows.  For every task of a fetched non-empty list
    of renderable tasks, when the task's title is a string, the row
    rendered for it holds that title, a status pill whose class ends in
    the status and whose label is the status with its first underscore
    replaced by a space (which is every underscore when the status has at
    most one, as [todo], [in_progress] and [done] do), the logged hours
    with one decimal, and a delete button bound to the task. *)
Theorem rendered_row_shows_task (w : world) (st : state) (lst sts : element)
    (res : response) (data : value) (tasks : list value)
    (i : nat) (task : value) (title s : string) (x : float) :
  document st !! "task-list" = Some lst ->
  document st !! "task-stats" = Some sts ->
  server w (trace st) (api_call w (localStorage st) "/tasks" no_options) =
    Responded res ->
  ok res = true -> status res <> 204%Z -> payload res = Json data ->
  get_prop (js w) data "items" = Return (VArr tasks) ->
  Forall (renderable (js w)) tasks ->
  tasks !! i = Some task ->
  field task "title" = VStr title ->
  field task "status" = VStr s ->
  field task "time_logged" = VNum x ->
  exists st' lst',
    loadTasks w st = (Return tt, st') /\
    document st' !! "task-list" = Some lst' /\
    content lst' !! i =
      Some (Elem "div" "task-item"
              [ Elem "div" "task-item-title" (text_nodes title) None;
                Elem "div" ""
                  [ Elem "span" ("task-status-pill task-status-" ++ s)
                      (text_nodes (replace_first "_" " " s)) None ] None;
                Elem "div" "task-item-meta"
                  [Text (toFixed (js w) 1 x ++ "h logged")] None;
                Elem "div" "task-actions"
                  [ Elem "button" "btn btn-ghost" [Text "Delete"]
                      (Some (DeleteTask task)) ] None ]
              None) /\
    (occurrences "_" s <= 1 ->
     replace_first "_" " " s = replace_all "_" " " s).
Proof.
  intros Hlist Hstats Hsrv Hok Hst Hbody Hitems Hwf Hi Htitle Hs Hx.
  destruct (loadTasks_rendered w st lst sts res data tasks)
    as (st' & Hrun & Hl & _); try assumption.
  eexists st', _. split; [exact Hrun |]. split; [exact Hl |].
  split; [| apply replace_first_once].
  cbn [content]. destruct tasks as [| t0 rest]; [discriminate |].
  cbn [list_content]. rewrite list_lookup_fmap, Hi.
  cbn [fmap option_fmap option_map].
  unfold rendered_row, task_row, hours, title_text, status_text.
  rewrite Htitle, Hs, Hx.
  cbn [text_of to_string prim_string]. rewrite text_nodes_hours. reflexivity.
Qed.

Lemma rendered_row_shows_task_witness :
  exists st' lst',
    loadTasks (always 200 (VObj [("items", VArr [review_task])])) (page ∅) =
      (Return tt, st') /\
    document st' !! "task-list" = Some lst' /\
    content lst' !! 0 =
      Some (Elem "div" "task-item"
              [ Elem "div" "task-item-title" [Text "Ship it"] None;
                Elem "div" ""
                  [ Elem "span" "task-status-pill task-status-in_progress"
                      [Text "in progress"] None ] None;
                Elem "div" "task-item-meta" [Text "1.5h logged"] None;
                Elem "div" "task-actions"
                  [ Elem "button" "btn btn-ghost" [Text "Delete"]
                      (Some (DeleteTask review_task)) ] None ]
              None).
Proof.
  destruct (rendered_row_shows_task
              (always 200 (VObj [("items", VArr [review_task])])) (page ∅)
              blank blank
              {| status := 200;
                 payload := Json (VObj [("items", VArr [review_task])]) |}
              (VObj [("items", VArr [review_task])]) [review_task]
              0 review_task "Ship it" "in_progress" 1.5%float)
    as (st' & lst' & Hrun & Hl & Hrow & _).
  - reflexivity.
  - reflexivity.
  - reflexivity.
  - reflexivity.
  - discriminate.
  - reflexivity.
  - reflexivity.
  - constructor; [| constructor].
    exists "in_progress", 1.5%float, "Ship it". repeat split; reflexivity.
  - reflexivity.
  - reflexivity.
  - reflexivity.
  - reflexivity.
  - exists st', lst'. repeat split; assumption.
Defined.

(** C7 on the code: a task whose status has two underscores.  The label
    of its pill has the first one replaced by a space and the second one
    still in place, where the claim has every underscore replaced. *)
Lemma second_underscore_kept :
  let task := VObj [("id", VStr "7"); ("title", VStr "Ship it");
                    ("status", VStr "needs_code_review");
                    ("time_logged", VNum 1.5%float)] in
  let w := always 200 (VObj [("items", VArr [task])]) in
  let st' := snd (loadTasks w (page ∅)) in
  fst (loadTasks w (page ∅)) = Return tt /\
  content <$> document st' !! "task-list" =
    Some [ Elem "div" "task-item"
             [ Elem "div" "task-item-title" [Text "Ship it"] None;
               Elem "div" ""
                 [ Elem "span" "task-status-pill task-status-needs_code_review"
                     [Text "needs code_review"] None ] None;
               Elem "div" "task-item-meta" [Text "1.5h logged"] None;
               Elem "div" "task-actions"
                 [ Elem "button" "btn btn-ghost" [Text "Delete"]
                     (Some (DeleteTask task)) ] None ]
             None ] /\
  replace_all "_" " " "needs_code_review" = "needs code review" /\
  "needs code_review" <> "needs code review".
Proof. vm_compute. repeat split; [reflexivity .. | discriminate]. Qed.

(** ** Rendering touches the list element only *)

Lemma only_element_refl (id : string) (st : state) : only_element id st st.
Proof. unfold only_element. auto. Qed.

Lemma only_element_trans (id : string) (st1 st2 st3 : state) :
  only_element id st1 st2 -> only_element id st2 st3 ->
  only_element id st1 st3.
Proof.
  intros (Hs & Ht & Hl & Ho & Hi) (Hs' & Ht' & Hl' & Ho' & Hi').
  unfold only_element. repeat split; try congruence.
  - intros j Hj. rewrite (Ho' j Hj). apply Ho. exact Hj.
  - auto.
Qed.

Lemma only_element_alter (id : string) (f : element -> element) (st : state) :
  only_element id st (with_document (alter f id) st).
Proof.
  unfold only_element. cbn. repeat split.
  - intros j Hj. apply lookup_alter_ne. congruence.
  - intros [el Hel]. rewrite lookup_alter_eq, Hel. eauto.
Qed.

(** A pass of the callback either throws before touching anything or
    appends one row. *)
Lemma render_row_steps (w : world) (id : string) (task : value)
    (acc : value * nat) (st : state) :
  (exists e, render_row w (Some id) task acc st = (Throw e, st)) \/
  (exists acc' row,
     render_row w (Some id) task acc st =
     (Return acc', with_document (alter (append_content row) id) st)).
Proof.
  destruct acc as [total done]. unfold render_row. run.
  repeat match goal with
         | |- context [match ?o with Return _ => _ | Throw _ => _ end] =>
             destruct o
         end; eauto.
Qed.

(** An absent or [null] [time_logged] makes the pass throw: nothing
    guards the [toFixed] call of line 133. *)
Lemma render_row_missing_hours (w : world) (id : string) (task logged : value)
    (acc : value * nat) (st : state) :
  get_prop (js w) task "time_logged" = Return logged ->
  logged = VUndefined \/ logged = VNull ->
  exists e, render_row w (Some id) task acc st = (Throw e, st).
Proof.
  intros Hget Hlogged. destruct acc as [total done].
  unfold render_row. run. rewrite Hget. cbv beta iota.
  assert (Hfix : exists e, call_toFixed (js w) logged 1 = Throw e).
  { destruct Hlogged as [-> | ->]; cbn; eauto. }
  destruct Hfix as [e0 Hfix]. rewrite Hfix.
  repeat match goal with
         | |- context [match ?o with Return _ => _ | Throw _ => _ end] =>
             destruct o
         end; eauto.
Qed.

Lemma for_each_only_list (w : world) (id : string) (tasks : list value) :
  forall (acc : value * nat) (st : state),
    only_element id st (snd (for_each (render_row w (Some id)) tasks acc st)).
Proof.
  induction tasks as [| task rest IH]; intros acc st.
  - apply only_element_refl.
  - cbn [for_each]. unfold bind at 1.
    destruct (render_row_steps w id task acc st)
      as [[e Hrun] | (acc' & row & Hrun)]; rewrite Hrun.
    + apply only_element_refl.
    + eapply only_element_trans; [apply only_element_alter | apply IH].
Qed.

(** One task without hours is enough for the whole [forEach] to throw. *)
Lemma for_each_missing_hours (w : world) (id : string) (tasks : list value)
    (task logged : value) :
  In task tasks ->
  get_prop (js w) task "time_logged" = Return logged ->
  logged = VUndefined \/ logged = VNull ->
  forall (acc : value * nat) (st : state),
  exists e, fst (for_each (render_row w (Some id)) tasks acc st) = Throw e.
Proof.
  intros Hin Hget Hlogged.
  induction tasks as [| t rest IH]; intros acc st; [contradiction |].
  cbn [for_each]. unfold bind at 1.
  destruct Hin as [-> | Hin].
  - destruct (render_row_missing_hours w id task logged acc st Hget Hlogged)
      as [e Hrun].
    rewrite Hrun. eauto.
  - destruct (render_row_steps w id t acc st)
      as [[e Hrun] | (acc' & row & Hrun)]; rewrite Hrun.
    + eauto.
    + apply IH. exact Hin.
Qed.

Lemma markup_nodes_paragraph (msg : string) :
  markup_nodes ("<p>" ++ msg ++ "</p>") = [Markup ("<p>" ++ msg ++ "</p>")].
Proof. reflexivity. Qed.

(** C10: when a task of a fetched non-empty list has an absent or [null]
    [time_logged], the [forEach] of [loadTasks] throws (formatting that
    task's hours throws a [TypeError], nothing guarding it), the catch
    branch replaces the list by the error's message and empties the
    summary; the running total had taken the same value for zero. *)
Theorem loadTasks_missing_time_logged (w : world) (st : state)
    (lst sts : element) (res : response) (data : value)
    (tasks : list value) (task logged : value) :
  document st !! "task-list" = Some lst ->
  document st !! "task-stats" = Some sts ->
  server w (trace st) (api_call w (localStorage st) "/tasks" no_options) =
    Responded res ->
  ok res = true -> status res <> 204%Z -> payload res = Json data ->
  get_prop (js w) data "items" = Return (VArr tasks) ->
  In task tasks ->
  get_prop (js w) task "time_logged" = Return logged ->
  logged = VUndefined \/ logged = VNull ->
  exists e st' lst' sts',
    fst (for_each (render_row w (Some "task-list")) tasks (VNum 0%float, 0)
           (list_cleared w st)) = Throw e /\
    loadTasks w st = (Return tt, st') /\
    document st' !! "task-list" = Some lst' /\
    content lst' = [Markup ("<p>" ++ message e ++ "</p>")] /\
    document st' !! "task-stats" = Some sts' /\
    content sts' = [] /\
    call_toFixed (js w) logged 1 =
      Throw (TypeError
               (type_error_message (js w) (ReadOfNullish logged "toFixed"))) /\
    (forall total,
       js_add (js w) total (js_or logged (VNum 0%float)) =
       js_add (js w) total (VNum 0%float)).
Proof.
  intros Hlist Hstats Hsrv Hok Hst Hbody Hitems Hin Hget Hlogged.
  destruct (for_each_missing_hours w "task-list" tasks task logged Hin Hget
              Hlogged (VNum 0%float, 0) (list_cleared w st)) as [e Hthrow].
  pose proof (for_each_only_list w "task-list" tasks (VNum 0%float, 0)
                (list_cleared w st)) as Hframe.
  assert (Hlist1 : is_Some (document (list_cleared w st) !! "task-list")).
  { unfold list_cleared. cbn [document with_document record].
    rewrite lookup_alter_eq, Hlist. eauto. }
  assert (Hstats1 : document (list_cleared w st) !! "task-stats" = Some sts).
  { unfold list_cleared. cbn [document with_document record].
    rewrite lookup_alter_ne by discriminate. exact Hstats. }
  assert (Hrun : exists st',
    loadTasks w st = (Return tt, st') /\
    document st' =
      alter (set_content (text_nodes "")) "task-stats"
        (alter (set_content (markup_nodes ("<p>" ++ message e ++ "</p>")))
           "task-list"
           (document
              (snd (for_each (render_row w (Some "task-list")) tasks
                      (VNum 0%float, 0) (list_cleared w st)))))).
  { unfold loadTasks, render_tasks, show_failure. run.
    rewrite Hlist, Hstats. cbv beta iota.
    rewrite (apiRequest_success w _ _ _ res data) by assumption.
    cbv beta iota. rewrite Hitems. cbv beta iota.
    destruct tasks as [| t0 rest]; [contradiction |].
    cbn [no_length length Nat.eqb]. cbv beta iota.
    fold (list_cleared w st).
    destruct (for_each (render_row w (Some "task-list")) (t0 :: rest)
                (VNum 0%float, 0) (list_cleared w st)) as [r st2].
    cbn [fst] in Hthrow. subst r. cbv beta iota.
    eexists. split; reflexivity. }
  destruct Hrun as (st' & Hrun & Hdoc).
  destruct Hframe as (_ & _ & _ & Hother & Hsome).
  destruct (Hsome Hlist1) as [lst2 Hlst2].
  exists e, st', (set_content [Markup ("<p>" ++ message e ++ "</p>")] lst2),
    (set_content [] sts).
  split; [exact Hthrow |]. split; [exact Hrun |].
  rewrite Hdoc. split; [| split; [reflexivity |]].
  { rewrite lookup_alter_ne by discriminate.
    rewrite lookup_alter_eq, Hlst2. reflexivity. }
  split; [| split; [reflexivity |]].
  { rewrite lookup_alter_eq, lookup_alter_ne by discriminate.
    rewrite (Hother "task-stats") by discriminate.
    rewrite Hstats1. reflexivity. }
  split.
  - destruct Hlogged as [-> | ->]; reflexivity.
  - intros total. destruct Hlogged as [-> | ->]; reflexivity.
Qed.

Lemma loadTasks_missing_time_logged_witness :
  exists e st' lst' sts',
    loadTasks (always 200 (VObj [("items", VArr [review_task; unlogged_task])]))
      (page ∅) = (Return tt, st') /\
    document st' !! "task-list" = Some lst' /\
    content lst' = [Markup ("<p>" ++ message e ++ "</p>")] /\
    document st' !! "task-stats" = Some sts' /\
    content sts' = [].
Proof.
  destruct (loadTasks_missing_time_logged
              (always 200 (VObj [("items", VArr [review_task; unlogged_task])]))
              (page ∅) blank blank
              {| status := 200;
                 payload :=
                   Json (VObj [("items", VArr [review_task; unlogged_task])]) |}
              (VObj [("items", VArr [review_task; unlogged_task])])
              [review_task; unlogged_task] unlogged_task VUndefined)
    as (e & st' & lst' & sts' & _ & Hrun & Hl & Hc & Hs & Hsc & _).
  - reflexivity.
  - reflexivity.
  - reflexivity.
  - reflexivity.
  - discriminate.
  - reflexivity.
  - reflexivity.
  - right. left. reflexivity.
  - reflexivity.
  - left. reflexivity.
  - exists e, st', lst', sts'. repeat split; assumption.
Defined.

Example missing_hours_run :
  let w := always 200 (VObj [("items", VArr [review_task; unlogged_task])]) in
  let st' := snd (loadTasks w (page ∅)) in
  content <$> document st' !! "task-list" =
    Some [Markup
            "<p>Cannot read properties of undefined (reading 'toFixed')</p>"] /\
  content <$> document st' !! "task-stats" = Some [].
Proof. vm_compute. split; reflexivity. Qed.

(** ** Who talks to the server *)

Lemma silent_ret {A} (a : A) : silent (ret a).
Proof. intros st. split; reflexivity. Qed.

Lemma silent_lift {A} (o : outcome A) : silent (lift o).
Proof. intros st. split; reflexivity. Qed.

Lemma silent_engine_throws {A} (w : world) (t : type_error) :
  silent (@engine_throws w A t).
Proof. intros st. split; reflexivity. Qed.

Lemma silent_assign (w : world) (h : handle) (prop : string)
    (f : element -> element) :
  silent (assign w h prop f).
Proof. intros st. destruct h; split; reflexivity. Qed.

Lemma silent_bind {A B} (m : M A) (k : A -> M B) :
  silent m -> (forall a, silent (k a)) -> silent (bind m k).
Proof.
  intros Hm Hk st. unfold bind. specialize (Hm st).
  destruct (m st) as [[a | e] st1]; cbn [snd] in Hm |- *.
  - destruct Hm as [Hs0 Ht0], (Hk a st1) as [Hs Ht]. split; congruence.
  - exact Hm.
Qed.

Lemma silent_try_catch {A} (m : M A) (h : exn -> M A) :
  silent m -> (forall e, silent (h e)) -> silent (try_catch m h).
Proof.
  intros Hm Hh st. unfold try_catch. specialize (Hm st).
  destruct (m st) as [[a | e] st1]; cbn [snd] in Hm |- *.
  - exact Hm.
  - destruct Hm as [Hs0 Ht0], (Hh e st1) as [Hs Ht]. split; congruence.
Qed.

Lemma silent_for_each (w : world) (id : string) (tasks : list value)
    (acc : value * nat) :
  silent (for_each (render_row w (Some id)) tasks acc).
Proof.
  intros st.
  destruct (for_each_only_list w id tasks acc st) as (Hs & Ht & _).
  split; assumption.
Qed.

Lemma silent_render_tasks (w : world) (statsEl : handle) (data : value) :
  silent (render_tasks w (Some "task-list") statsEl data).
Proof.
  unfold render_tasks.
  apply silent_bind; [apply silent_assign | intros _].
  apply silent_bind; [apply silent_lift | intros items].
  apply silent_bind; [apply silent_lift | intros empty].
  destruct empty.
  - apply silent_bind; [apply silent_assign | intros _]. apply silent_assign.
  - destruct items; try apply silent_engine_throws.
    apply silent_bind; [apply silent_for_each | intros [total done]].
    apply silent_bind; [apply silent_lift | intros h]. apply silent_assign.
Qed.

Lemma silent_show_failure (w : world) (listEl statsEl : handle) (e : exn) :
  silent (show_failure w listEl statsEl e).
Proof.
  unfold show_failure.
  apply silent_bind; [apply silent_assign | intros _]. apply silent_assign.
Qed.

(** [loadTasks] on a page that has the list: one request, for the whole
    list, whatever comes back. *)
Lemma loadTasks_one_fetch (w : world) (st : state) (lst : element) :
  document st !! "task-list" = Some lst ->
  let st' := snd (loadTasks w st) in
  localStorage st' = localStorage st /\
  fetches (trace st') =
    (fetches (trace st) ++
     [api_call w (localStorage st) "/tasks" no_options])%list.
Proof.
  intros Hlist. cbv zeta.
  set (statsEl := match document st !! "task-stats" with
                  | Some _ => Some "task-stats"
                  | None => None
                  end).
  assert (Hrun : loadTasks w st =
            try_catch
              (let* data := apiRequest w "/tasks" no_options in
               render_tasks w (Some "task-list") statsEl data)
              (show_failure w (Some "task-list") statsEl) st).
  { unfold loadTasks, bind, getElementById. rewrite Hlist. reflexivity. }
  rewrite Hrun. unfold try_catch, bind.
  destruct (apiRequest_frame w "/tasks" no_options st)
    as (Hs1 & _ & _ & Ht1). cbv zeta in Hs1, Ht1.
  assert (Hf1 : fetches (trace (snd (apiRequest w "/tasks" no_options st))) =
                (fetches (trace st) ++
                 [api_call w (localStorage st) "/tasks" no_options])%list).
  { destruct Ht1 as [Ht1 | Ht1]; rewrite Ht1, fetches_app; reflexivity. }
  clear Ht1.
  destruct (apiRequest w "/tasks" no_options st) as [[data | e] st1];
    cbn [snd] in Hs1, Hf1.
  - destruct (silent_render_tasks w statsEl data st1) as [Hs2 Ht2].
    destruct (render_tasks w (Some "task-list") statsEl data st1)
      as [[u | e] st2]; cbn [snd] in Hs2, Ht2 |- *.
    + split; congruence.
    + destruct (silent_show_failure w (Some "task-list") statsEl e st2)
        as [Hs3 Ht3].
      split; congruence.
  - destruct (silent_show_failure w (Some "task-list") statsEl e st1)
      as [Hs3 Ht3].
    split; congruence.
Qed.

Lemma detached_loadTasks_one_fetch (w : world) (st : state) (lst : element) :
  document st !! "task-list" = Some lst ->
  fst (detached (loadTasks w) st) = Return tt /\
  fetches (trace (snd (detached (loadTasks w) st))) =
    (fetches (trace st) ++
     [api_call w (localStorage st) "/tasks" no_options])%list.
Proof.
  intros Hlist.
  destruct (loadTasks_one_fetch w st lst Hlist) as [_ Hf].
  unfold detached. destruct (loadTasks w st) as [[u | e] st1];
    cbn [fst snd] in Hf |- *; split; try reflexivity; try exact Hf.
  cbn [trace record]. rewrite fetches_app, Hf. cbn. apply app_nil_r.
Qed.




(** ** Failures that nobody catches *)

(** X26: a failed request inside [handleNewTask] rejects the handler: there is
    no [try] around it, so nothing is shown, the form is not reset and
    the list is not reloaded. *)
Lemma handleNewTask_propagates (w : world) (form : task_form) (st st1 : state)
    (e : exn) :
  apiRequest w "/tasks" (post (new_task w form)) (record PreventDefault st) =
    (Throw e, st1) ->
  handleNewTask w form st = (Throw e, st1) /\ document st1 = document st.
Proof.
  intros Hreq. split.
  - unfold handleNewTask. unfold bind at 1. unfold emit at 1.
    unfold bind at 1. rewrite Hreq. reflexivity.
  - destruct (apiRequest_keeps _ _ _ _ _ _ Hreq) as (_ & Hd & _).
    rewrite Hd. reflexivity.
Qed.

(** X27: a failed delete request rejects the delete button's listener in
    the same way: nothing is shown, and the list is not reloaded.  The
    same holds when the request is not even sent because the task's id
    cannot be put into the URL. *)
Lemma delete_click_propagates (w : world) (task id : value) (st st1 : state)
    (e : exn) :
  user w (trace st) "Delete this task?" = true ->
  get_prop (js w) task "id" = Return id ->
  (let* id_text := lift (to_string (js w) id) in
   apiRequest w ("/tasks/" ++ id_text) delete_options)
    (record (Confirm "Delete this task?") st) = (Throw e, st1) ->
  delete_click w task st = (Throw e, st1) /\ document st1 = document st.
Proof.
  intros Hyes Hid Hreq. split.
  - unfold delete_click. unfold bind at 1. unfold confirm at 1.
    rewrite Hyes. cbn [negb]. unfold bind at 1. unfold lift at 1.
    rewrite Hid. fold delete_options.
    unfold bind at 1 in Hreq. unfold lift at 1 in Hreq.
    unfold bind at 1. unfold lift at 1.
    destruct (to_string (js w) id) as [id_text | e0].
    + unfold bind at 1. rewrite Hreq. reflexivity.
    + injection Hreq as -> ->. reflexivity.
  - unfold bind at 1 in Hreq. unfold lift at 1 in Hreq.
    destruct (to_string (js w) id) as [id_text | e0].
    + destruct (apiRequest_keeps _ _ _ _ _ _ Hreq) as (_ & Hd & _).
      rewrite Hd. reflexivity.
    + injection Hreq as _ <-. reflexivity.
Qed.

(** C3 on the code: the server refuses a new task with status 500 and a
    [detail].  [handleNewTask] ends with that error thrown, the page
    untouched, the form not reset and no reload; the same refusal while
    loading the list is caught and written into the list. *)
Example handleNewTask_failure_is_not_shown :
  let w := always 500 (VObj [("detail", VStr "boom")]) in
  let form := {| title_field := "Write tests"; status_field := "todo";
                 time_logged_field := "" |} in
  let run := handleNewTask w form (page ∅) in
  fst run = Throw (Error "boom") /\
  document (snd run) = full_page /\
  map url (fetches (trace (snd run))) = ["/tasks"] /\
  ~ In FormReset (trace (snd run)) /\
  fst (loadTasks w (page ∅)) = Return tt /\
  content <$> document (snd (loadTasks w (page ∅))) !! "task-list" =
    Some [Markup "<p>boom</p>"].
Proof.
  cbv zeta. repeat split; try (vm_compute; reflexivity).
  vm_compute. intuition discriminate.
Qed.

(** ** One decimal place *)

Lemma append_snoc (p : string) (c : ascii) (s : string) :
  (p ++ String c "") ++ s = p ++ String c s.
Proof.
  induction p as [| a p IH]; [reflexivity |].
  change (String a ((p ++ String c "") ++ s) = String a (p ++ String c s)).
  rewrite IH. reflexivity.
Qed.

(** The digits [pretty] prints, split at the last one. *)
Lemma pretty_go_append (x : N) :
  forall s, pretty_N_go x s = pretty_N_go x "" ++ s.
Proof.
  induction (N.lt_wf_0 x) as [x _ IH]. intros s.
  destruct (N.eq_dec x 0%N) as [-> | Hx].
  - rewrite !pretty_N_go_0. reflexivity.
  - assert (Hpos : (0 < x)%N) by lia.
    rewrite (pretty_N_go_step x s), (pretty_N_go_step x "") by exact Hpos.
    assert (Hlt : (x `div` 10 < x)%N) by (apply N.div_lt; lia).
    rewrite (IH _ Hlt (String _ s)), (IH _ Hlt (String _ "")).
    rewrite append_snoc. reflexivity.
Qed.

Lemma pretty_last_digit (n : N) :
  (10 <= n)%N ->
  pretty n = pretty (n `div` 10)%N ++ String (pretty_N_char (n `mod` 10)) "".
Proof.
  intros Hn. unfold pretty, pretty_N.
  assert (Hq : (0 < n `div` 10)%N).
  { apply N.div_str_pos. lia. }
  destruct (decide (n = 0%N)); [lia |].
  destruct (decide ((n `div` 10)%N = 0%N)); [lia |].
  rewrite pretty_N_go_step by lia. apply pretty_go_append.
Qed.

Lemma pretty_one_digit (n : N) :
  (n < 10)%N -> pretty n = String (pretty_N_char n) "".
Proof.
  intros Hn. destruct n as [| p]; [reflexivity |].
  do 4 (try (destruct p as [p | p |]; try reflexivity; try lia)).
Qed.

Lemma substring_prefix (p s : string) :
  substring 0 (String.length p) (p ++ s) = p.
Proof.
  induction p as [| a p IH].
  - destruct s; reflexivity.
  - change (String a (substring 0 (String.length p) (p ++ s)) = String a p).
    rewrite IH. reflexivity.
Qed.

Lemma substring_whole (s : string) : substring 0 (String.length s) s = s.
Proof.
  induction s as [| b s IH]; [reflexivity |].
  change (String b (substring 0 (String.length s) s) = String b s).
  rewrite IH. reflexivity.
Qed.

Lemma substring_suffix (p s : string) :
  substring (String.length p) (String.length s) (p ++ s) = s.
Proof.
  induction p as [| a p IH]; [apply substring_whole | exact IH].
Qed.

Lemma length_snoc (p : string) (c : ascii) :
  String.length (p ++ String c "") = S (String.length p).
Proof.
  induction p as [| a p IH]; [reflexivity |].
  change (S (String.length (p ++ String c "")) = S (S (String.length p))).
  rewrite IH. reflexivity.
Qed.

Lemma fixed_point_one (n : Z) :
  fixed_point 1 n =
  pretty (Z.to_N n `div` 10)%N ++ "." ++
  String (pretty_N_char (Z.to_N n `mod` 10)) "".
Proof.
  unfold fixed_point. cbn [Nat.eqb].
  set (k := Z.to_N n).
  destruct (N.lt_ge_cases k 10) as [Hlt | Hge].
  - rewrite (pretty_one_digit k Hlt).
    rewrite N.div_small, N.mod_small by exact Hlt. reflexivity.
  - rewrite (pretty_last_digit k Hge).
    set (p := pretty (k `div` 10)%N).
    set (c := pretty_N_char (k `mod` 10)).
    rewrite length_snoc.
    assert (Hp : String.length p <> 0).
    { subst p. unfold pretty, pretty_N.
      assert (Hq : (0 < k `div` 10)%N) by (apply N.div_str_pos; lia).
      destruct (decide ((k `div` 10)%N = 0%N)) as [H0 | H0]; [lia |].
      rewrite pretty_N_go_step by exact Hq. rewrite pretty_go_append.
      intros H. destruct (pretty_N_go _ ""); discriminate. }
    replace (1 + 1 - S (String.length p)) with 0 by lia.
    cbn [zeros].
    change ("" ++ p ++ String c "") with (p ++ String c "").
    rewrite length_snoc.
    replace (S (String.length p) - 1) with (String.length p) by lia.
    rewrite substring_prefix.
    change 1 with (String.length (String c "")).
    rewrite substring_suffix. reflexivity.
Qed.

(** [round_half_up] is within one half of the scaled value. *)
Lemma round_half_up_nearest (m e : Z) (f : nat) :
  (e < 0)%Z ->
  let n := round_half_up m e f in
  let d := (2 ^ (- e))%Z in
  ((2 * n - 1) * d <= 2 * (m * 10 ^ Z.of_nat f) < (2 * n + 1) * d)%Z.
Proof.
  intros He. cbv zeta. unfold round_half_up.
  destruct (Z.leb_spec 0 e) as [Hle | _]; [lia |].
  set (num := (m * 10 ^ Z.of_nat f)%Z).
  set (d := (2 ^ (- e))%Z).
  assert (Hd : (0 < d)%Z) by (subst d; apply Z.pow_pos_nonneg; lia).
  replace (2 ^ (- e + 1))%Z with (2 * d)%Z
    by (subst d; rewrite Z.pow_add_r by lia; lia).
  pose proof (Z.div_mod (2 * num + d) (2 * d) ltac:(lia)) as Hdm.
  pose proof (Z.mod_pos_bound (2 * num + d) (2 * d) ltac:(lia)) as Hr.
  nia.
Qed.

(** X5: [toFixed(1)] of a finite number below 10^21 in magnitude: the sign,
    the decimal digits of [n / 10], a point and the one digit [n mod 10],
    where [n] is the integer nearest to ten times the magnitude, the
    larger one on a tie. *)
Theorem toFixed_one_decimal (eng : engine) (x : float) (s : bool)
    (m : positive) (e : Z) :
  Prim2SF x = S754_finite s m e ->
  at_least_1e21 (Z.pos m) e = false ->
  let n := round_half_up (Z.pos m) e 1 in
  toFixed eng 1 x =
    (if s then "-" else "") ++ pretty (Z.to_N n `div` 10)%N ++ "." ++
    String (pretty_N_char (Z.to_N n `mod` 10)) "" /\
  ((e < 0)%Z ->
   ((2 * n - 1) * 2 ^ (- e) <= 2 * (Z.pos m * 10) < (2 * n + 1) * 2 ^ (- e))%Z) /\
  ((0 <= e)%Z -> n = (Z.pos m * 10 * 2 ^ e)%Z).
Proof.
  intros Hx Hsmall. cbv zeta. split; [| split].
  - unfold toFixed. rewrite Hx, Hsmall, fixed_point_one. reflexivity.
  - intros He. apply (round_half_up_nearest (Z.pos m) e 1 He).
  - intros He. unfold round_half_up.
    destruct (Z.leb_spec 0 e); [reflexivity | lia].
Qed.

Lemma toFixed_one_decimal_witness :
  toFixed stub_engine 1 2.25%float = "2.3".
Proof.
  destruct (toFixed_one_decimal stub_engine 2.25%float false
              5066549580791808%positive (-51) eq_refl eq_refl) as [H _].
  rewrite H. vm_compute. reflexivity.
Defined.

(** ** Further properties of the spec's list *)

(** X1: after logout the stored token is absent whatever it was before,
    and the page is the home page. *)
Theorem logout_clears_token (w : world) (st : state) :
  exists st',
    logout_click w st = (Return tt, st') /\
    localStorage st' !! "devtask_token" = None /\
    location st' = "/".
Proof.
  eexists. split; [reflexivity |]. cbn. split; [| reflexivity].
  apply lookup_delete_eq.
Qed.

(** X2: a login whose request throws shows the error's message in the
    [login-error] element, stores nothing and stays on the page. *)
Theorem handleLogin_failure (w : world) (form : auth_form) (st st2 : state)
    (el : element) (err : exn) :
  document st !! "login-error" = Some el ->
  apiRequest w "/auth/login" (post (credentials form))
    (submitted "login-error" st) = (Throw err, st2) ->
  exists st',
    handleLogin w form st = (Return tt, st') /\
    localStorage st' = localStorage st /\
    document st' !! "login-error" =
      Some {| hidden := false; content := text_nodes (message err) |} /\
    location st' = location st.
Proof.
  intros Hel Hlogin.
  destruct (apiRequest_keeps _ _ _ _ _ _ Hlogin) as (Hs2 & Hd2 & Hl2).
  unfold handleLogin. run. rewrite document_record, Hel. cbv beta iota.
  fold (submitted "login-error" st). rewrite Hlogin. cbv beta iota.
  eexists. split; [reflexivity |].
  cbn [localStorage document location with_document].
  rewrite Hs2, Hd2, Hl2. cbn.
  repeat split; auto.
  apply shown_error with (el := el). exact Hel.
Qed.

Lemma handleLogin_failure_witness :
  exists st',
    handleLogin (always 401 (VObj [("detail", VStr "Invalid credentials")]))
      someone (page ∅) = (Return tt, st') /\
    localStorage st' = ∅ /\
    document st' !! "login-error" =
      Some {| hidden := false; content := [Text "Invalid credentials"] |} /\
    location st' = "/".
Proof.
  pose (w := always 401 (VObj [("detail", VStr "Invalid credentials")])).
  apply (handleLogin_failure w someone (page ∅)
           (snd (apiRequest w "/auth/login" (post (credentials someone))
                   (submitted "login-error" (page ∅))))
           {| hidden := true; content := [] |}
           (Error "Invalid credentials")).
  - reflexivity.
  - vm_compute. reflexivity.
Defined.

(** X3: when the request for the list throws, [loadTasks] replaces the
    list by the error's message and empties the summary. *)
Theorem loadTasks_fetch_failure (w : world) (st st1 : state)
    (lst sts : element) (err : exn) :
  document st !! "task-list" = Some lst ->
  document st !! "task-stats" = Some sts ->
  apiRequest w "/tasks" no_options st = (Throw err, st1) ->
  exists st',
    loadTasks w st = (Return tt, st') /\
    document st' !! "task-list" =
      Some {| hidden := hidden lst;
              content := [Markup ("<p>" ++ message err ++ "</p>")] |} /\
    document st' !! "task-stats" = Some {| hidden := hidden sts; content := [] |}.
Proof.
  intros Hlist Hstats Hreq.
  destruct (apiRequest_keeps _ _ _ _ _ _ Hreq) as (_ & Hd1 & _).
  unfold loadTasks, render_tasks, show_failure. run.
  rewrite Hlist, Hstats. cbv beta iota. rewrite Hreq. cbv beta iota.
  eexists. split; [reflexivity |].
  cbn [document with_document]. rewrite Hd1. split.
  - rewrite lookup_alter_ne by discriminate.
    rewrite lookup_alter_eq, Hlist. reflexivity.
  - rewrite lookup_alter_eq, lookup_alter_ne by discriminate.
    rewrite Hstats. reflexivity.
Qed.

Lemma loadTasks_fetch_failure_witness :
  exists st',
    loadTasks (always 401 (VObj [("detail", VStr "Not authenticated")]))
      (page ∅) = (Return tt, st') /\
    document st' !! "task-list" =
      Some {| hidden := false;
              content := [Markup "<p>Not authenticated</p>"] |} /\
    document st' !! "task-stats" = Some {| hidden := false; content := [] |}.
Proof.
  pose (w := always 401 (VObj [("detail", VStr "Not authenticated")])).
  apply (loadTasks_fetch_failure w (page ∅)
           (snd (apiRequest w "/tasks" no_options (page ∅)))
           blank blank (Error "Not authenticated")).
  - reflexivity.
  - reflexivity.
  - vm_compute. reflexivity.
Defined.

(** X4: a task that the server accepts: [handleNewTask] posts it, resets
    the form and then fetches the whole list again, in this order and with
    no other request. *)
Theorem handleNewTask_reloads (w : world) (form : task_form) (st st1 : state)
    (lst : element) (created : value) :
  document st !! "task-list" = Some lst ->
  apiRequest w "/tasks" (post (new_task w form)) (record PreventDefault st) =
    (Return created, st1) ->
  exists st' later,
    handleNewTask w form st = (Return tt, st') /\
    trace st' = (trace st1 ++ FormReset :: later)%list /\
    fetches (trace st1) =
      (fetches (trace st) ++
       [api_call w (localStorage st) "/tasks" (post (new_task w form))])%list /\
    fetches later = [api_call w (localStorage st) "/tasks" no_options].
Proof.
  intros Hlist Hreq.
  destruct (apiRequest_keeps _ _ _ _ _ _ Hreq) as (Hs1 & Hd1 & _).
  set (st2 := record FormReset st1).
  assert (Hlist2 : document st2 !! "task-list" = Some lst).
  { subst st2. rewrite document_record, Hd1. exact Hlist. }
  destruct (detached_loadTasks_one_fetch w st2 lst Hlist2) as [Hr Hf].
  assert (Hgrow : exists later,
            trace (snd (detached (loadTasks w) st2)) =
            (trace st2 ++ later)%list).
  { unfold detached.
    assert (Hload : exists l0, trace (snd (loadTasks w st2)) =
                               (trace st2 ++ l0)%list).
    { set (statsEl := match document st2 !! "task-stats" with
                      | Some _ => Some "task-stats"
                      | None => None
                      end).
      assert (Hrun : loadTasks w st2 =
                try_catch
                  (let* data := apiRequest w "/tasks" no_options in
                   render_tasks w (Some "task-list") statsEl data)
                  (show_failure w (Some "task-list") statsEl) st2).
      { unfold loadTasks, bind, getElementById. rewrite Hlist2. reflexivity. }
      rewrite Hrun. unfold try_catch, bind.
      destruct (apiRequest_frame w "/tasks" no_options st2)
        as (_ & _ & _ & Ht). cbv zeta in Ht.
      assert (Ht' : exists l0,
                trace (snd (apiRequest w "/tasks" no_options st2)) =
                (trace st2 ++ l0)%list)
        by (destruct Ht as [Ht | Ht]; rewrite Ht; eauto).
      clear Ht. destruct Ht' as [l0 Ht].
      destruct (apiRequest w "/tasks" no_options st2) as [[data | e] st3];
        cbn [snd] in Ht.
      - destruct (silent_render_tasks w statsEl data st3) as [_ Ht2].
        destruct (render_tasks w (Some "task-list") statsEl data st3)
          as [[u | e] st4]; cbn [snd] in Ht2 |- *.
        + exists l0. congruence.
        + destruct (silent_show_failure w (Some "task-list") statsEl e st4)
            as [_ Ht3].
          exists l0. congruence.
      - destruct (silent_show_failure w (Some "task-list") statsEl e st3)
          as [_ Ht3].
        exists l0. congruence. }
    destruct Hload as [l0 Hload].
    destruct (loadTasks w st2) as [[u | e] st3]; cbn [snd] in Hload |- *.
    - eauto.
    - exists (l0 ++ [UnhandledRejection e])%list.
      cbn [trace record]. rewrite Hload, <- app_assoc. reflexivity. }
  destruct Hgrow as [later Hlater].
  exists (snd (detached (loadTasks w) st2)), later.
  split; [| split; [| split]].
  - unfold handleNewTask. unfold bind at 1. unfold emit at 1.
    unfold bind at 1. rewrite Hreq. unfold bind at 1. unfold emit at 1.
    fold st2. destruct (detached (loadTasks w) st2) as [r st3].
    cbn [fst] in Hr. subst r. reflexivity.
  - rewrite Hlater. subst st2. cbn [trace record].
    rewrite <- app_assoc. reflexivity.
  - pose proof (apiRequest_frame w "/tasks" (post (new_task w form))
                  (record PreventDefault st)) as (_ & _ & _ & Ht).
    rewrite Hreq in Ht. cbn [snd trace record localStorage] in Ht.
    destruct Ht as [Ht | Ht]; rewrite Ht, !fetches_app; cbn;
      rewrite app_nil_r; reflexivity.
  - rewrite Hlater, fetches_app in Hf.
    apply app_inv_head in Hf. rewrite Hf. subst st2.
    rewrite storage_record, Hs1. reflexivity.
Qed.

Lemma handleNewTask_reloads_witness :
  exists st',
    handleNewTask (always 200 (VObj [("items", VArr [review_task])]))
      {| title_field := "Plan"; status_field := "todo";
         time_logged_field := "" |} (page ∅) = (Return tt, st') /\
    map method (fetches (trace st')) = [Some "POST"; None].
Proof.
  pose (w := always 200 (VObj [("items", VArr [review_task])])).
  pose (form := {| title_field := "Plan"; status_field := "todo";
                   time_logged_field := "" |}).
  destruct (handleNewTask_reloads w form (page ∅)
              (snd (apiRequest w "/tasks" (post (new_task w form))
                      (record PreventDefault (page ∅))))
              blank (VObj [("items", VArr [review_task])])
              eq_refl eq_refl)
    as (st' & later & Hrun & Ht & Hpost & Hreload).
  exists st'. split; [exact Hrun |].
  rewrite Ht, fetches_app. cbn [fetches]. rewrite Hpost, Hreload.
  reflexivity.
Defined.

(** ** What the dashboard code leaves alone *)

Lemma dashboard_only_refl (st : state) : dashboard_only st st.
Proof. unfold dashboard_only. auto. Qed.

Lemma dashboard_only_trans (st1 st2 st3 : state) :
  dashboard_only st1 st2 -> dashboard_only st2 st3 -> dashboard_only st1 st3.
Proof.
  intros (Hs & Hl & Ho & Hp) (Hs' & Hl' & Ho' & Hp').
  unfold dashboard_only. repeat split; try congruence.
  - intros j H1 H2. rewrite (Ho' j H1 H2). apply Ho; assumption.
  - auto.
Qed.

Lemma dashboard_only_record (ev : event) (st : state) :
  dashboard_only st (record ev st).
Proof. unfold dashboard_only. cbn. auto. Qed.

Lemma tidy_ret {A} (a : A) : tidy (ret a).
Proof. intros st. apply dashboard_only_refl. Qed.

Lemma tidy_lift {A} (o : outcome A) : tidy (lift o).
Proof. intros st. apply dashboard_only_refl. Qed.

Lemma tidy_engine_throws {A} (w : world) (t : type_error) :
  tidy (@engine_throws w A t).
Proof. intros st. apply dashboard_only_refl. Qed.

Lemma tidy_bind {A B} (m : M A) (k : A -> M B) :
  tidy m -> (forall a, tidy (k a)) -> tidy (bind m k).
Proof.
  intros Hm Hk st. unfold bind. specialize (Hm st).
  destruct (m st) as [[a | e] st1]; cbn [snd] in Hm |- *.
  - eapply dashboard_only_trans; [exact Hm | apply Hk].
  - exact Hm.
Qed.

Lemma tidy_try_catch {A} (m : M A) (h : exn -> M A) :
  tidy m -> (forall e, tidy (h e)) -> tidy (try_catch m h).
Proof.
  intros Hm Hh st. unfold try_catch. specialize (Hm st).
  destruct (m st) as [[a | e] st1]; cbn [snd] in Hm |- *.
  - exact Hm.
  - eapply dashboard_only_trans; [exact Hm | apply Hh].
Qed.

Lemma tidy_assign (w : world) (h : handle) (prop : string)
    (f : element -> element) :
  dashboard_handle h -> tidy (assign w h prop f).
Proof.
  intros Hh st. destruct h as [id |]; [| apply dashboard_only_refl].
  unfold dashboard_only. cbn. repeat split.
  - intros j H1 H2. apply lookup_alter_ne.
    destruct Hh as [Hh | [Hh | Hh]]; congruence.
  - intros j [el Hel]. destruct (String.eqb_spec id j) as [-> | Hne].
    + rewrite lookup_alter_eq, Hel. eauto.
    + rewrite lookup_alter_ne by exact Hne. eauto.
Qed.

Lemma tidy_for_each (w : world) (tasks : list value) (acc : value * nat) :
  tidy (for_each (render_row w (Some "task-list")) tasks acc).
Proof.
  intros st.
  destruct (for_each_only_list w "task-list" tasks acc st)
    as (Hs & _ & Hl & Ho & Hp).
  unfold dashboard_only. repeat split; auto.
  intros j Hj. destruct (String.eqb_spec j "task-list") as [-> | Hne].
  - apply Hp. exact Hj.
  - rewrite (Ho j Hne). exact Hj.
Qed.

Lemma tidy_apiRequest (w : world) (path : string) (opts : options) :
  tidy (apiRequest w path opts).
Proof.
  intros st.
  destruct (apiRequest_frame w path opts st) as (Hs & Hd & Hl & _).
  cbv zeta in Hs, Hd, Hl. unfold dashboard_only. rewrite Hs, Hd, Hl. auto.
Qed.

Lemma tidy_render_tasks (w : world) (statsEl : handle) (data : value) :
  dashboard_handle statsEl ->
  tidy (render_tasks w (Some "task-list") statsEl data).
Proof.
  intros Hstats.
  assert (Hlist : dashboard_handle (Some "task-list")) by (right; left; auto).
  unfold render_tasks.
  apply tidy_bind; [apply tidy_assign, Hlist | intros _].
  apply tidy_bind; [apply tidy_lift | intros items].
  apply tidy_bind; [apply tidy_lift | intros empty].
  destruct empty.
  - apply tidy_bind; [apply tidy_assign, Hlist | intros _].
    apply tidy_assign, Hstats.
  - destruct items; try apply tidy_engine_throws.
    apply tidy_bind; [apply tidy_for_each | intros [total done]].
    apply tidy_bind; [apply tidy_lift | intros h].
    apply tidy_assign, Hstats.
Qed.

Lemma tidy_show_failure (w : world) (statsEl : handle) (e : exn) :
  dashboard_handle statsEl ->
  tidy (show_failure w (Some "task-list") statsEl e).
Proof.
  intros Hstats. unfold show_failure.
  apply tidy_bind; [| intros _; apply tidy_assign, Hstats].
  apply tidy_assign. right. left. reflexivity.
Qed.

Lemma dashboard_handle_of (st : state) :
  dashboard_handle (handle_of st "task-stats").
Proof.
  unfold handle_of, dashboard_handle.
  destruct (document st !! "task-stats"); auto.
Qed.

(** [loadTasks] with the two lookups done. *)
Lemma loadTasks_unfold (w : world) (st : state) :
  loadTasks w st =
  match document st !! "task-list" with
  | None => (Return tt, st)
  | Some _ =>
      try_catch
        (let* data := apiRequest w "/tasks" no_options in
         render_tasks w (Some "task-list") (handle_of st "task-stats") data)
        (show_failure w (Some "task-list") (handle_of st "task-stats")) st
  end.
Proof.
  unfold loadTasks, bind, getElementById, handle_of.
  destruct (document st !! "task-list"); reflexivity.
Qed.

Lemma tidy_loadTasks (w : world) : tidy (loadTasks w).
Proof.
  intros st. rewrite loadTasks_unfold.
  destruct (document st !! "task-list") as [lst |];
    [| apply dashboard_only_refl].
  apply tidy_try_catch.
  - apply tidy_bind; [apply tidy_apiRequest | intros data].
    apply tidy_render_tasks, dashboard_handle_of.
  - intros e. apply tidy_show_failure, dashboard_handle_of.
Qed.

(** X6: whatever the server answers, [loadTasks] leaves the storage and
    the location as they were, changes no element other than [task-list]
    and [task-stats], and removes no element from the page. *)
Theorem loadTasks_confined (w : world) (st : state) :
  let st' := snd (loadTasks w st) in
  localStorage st' = localStorage st /\
  location st' = location st /\
  (forall id, id <> "task-list" -> id <> "task-stats" ->
              document st' !! id = document st !! id) /\
  (forall id, is_Some (document st !! id) -> is_Some (document st' !! id)).
Proof. apply (tidy_loadTasks w st). Qed.

Lemma loadTasks_without_list_helper (w : world) (st : state) :
  document st !! "task-list" = None -> loadTasks w st = (Return tt, st).
Proof. intros H. rewrite loadTasks_unfold, H. reflexivity. Qed.

(** X7: on a page without the [task-list] element [loadTasks] does
    nothing: no request is sent and the state is the one it started in. *)
Theorem loadTasks_without_list (w : world) (st : state) :
  document st !! "task-list" = None ->
  loadTasks w st = (Return tt, st).
Proof. intros H. rewrite loadTasks_unfold, H. reflexivity. Qed.

Lemma loadTasks_without_list_witness :
  loadTasks (always 200 (VObj [("items", VArr [review_task])]))
    {| localStorage := ∅;
       document := {[ "login-error" := blank ]};
       location := "/"; trace := [] |} =
  (Return tt,
   {| localStorage := ∅;
      document := {[ "login-error" := blank ]};
      location := "/"; trace := [] |}).
Proof. apply loadTasks_without_list. reflexivity. Defined.

(** Without a summary element the [try] block cannot finish: each of its
    ways out assigns to the element. *)
Lemma render_tasks_without_stats (w : world) (data : value) (st : state) :
  exists e, fst (render_tasks w (Some "task-list") None data st) = Throw e.
Proof.
  unfold render_tasks. run.
  destruct (get_prop (js w) data "items") as [items | e]; [| eauto].
  destruct (no_length w items) as [[|] | e]; [eauto | | eauto].
  destruct items; eauto.
  match goal with
  | |- context [for_each ?f ?l ?a ?s] => destruct (for_each f l a s) as [[acc | e] st2]
  end; [| eauto].
  destruct acc as [total done].
  destruct (call_toFixed (js w) total 1); eauto.
Qed.

(** X8: on a page that has the list but not the summary element,
    [loadTasks] ends in a rejection whatever the server answers: the
    [try] block throws some error [e] (at the latest when it assigns the
    summary), the [catch] block writes the message of [e] into the list
    and then throws itself on the same assignment. *)
Theorem loadTasks_without_stats (w : world) (st : state) (lst : element) :
  document st !! "task-list" = Some lst ->
  document st !! "task-stats" = None ->
  exists e st1 st' lst',
    (let* data := apiRequest w "/tasks" no_options in
     render_tasks w (Some "task-list") None data) st = (Throw e, st1) /\
    loadTasks w st =
      (Throw (TypeError
                (type_error_message (js w) (WriteOnNull "textContent"))),
       st') /\
    document st' !! "task-list" = Some lst' /\
    content lst' = [Markup ("<p>" ++ message e ++ "</p>")].
Proof.
  intros Hlist Hstats.
  rewrite loadTasks_unfold, Hlist. unfold handle_of. rewrite Hstats.
  assert (Hbody : exists e st1,
    (let* data := apiRequest w "/tasks" no_options in
     render_tasks w (Some "task-list") None data) st = (Throw e, st1) /\
    is_Some (document st1 !! "task-list")).
  { pose proof (tidy_bind (apiRequest w "/tasks" no_options)
                  (render_tasks w (Some "task-list") None)
                  (tidy_apiRequest w "/tasks" no_options)
                  (fun data => tidy_render_tasks w None data (or_introl eq_refl))
                  st) as (_ & _ & _ & Hp).
    specialize (Hp "task-list" (ex_intro _ lst Hlist)).
    unfold bind in *.
    destruct (apiRequest w "/tasks" no_options st) as [[data | e] st1].
    - destruct (render_tasks_without_stats w data st1) as [e He].
      destruct (render_tasks w (Some "task-list") None data st1) as [r st2].
      cbn [fst snd] in He, Hp. subst r. eauto.
    - cbn [snd] in Hp. eauto. }
  destruct Hbody as (e & st1 & Hrun & [lst1 Hlst1]).
  unfold try_catch. rewrite Hrun. unfold show_failure. run.
  exists e, st1. eexists. eexists. split; [reflexivity |].
  split; [reflexivity |].
  cbn [document with_document]. rewrite lookup_alter_eq, Hlst1.
  split; reflexivity.
Qed.

Lemma loadTasks_without_stats_witness :
  exists st' lst',
    loadTasks (always 200 (VObj [("items", VArr [review_task])]))
      page_without_stats =
      (Throw (TypeError "Cannot set properties of null (setting 'textContent')"),
       st') /\
    document st' !! "task-list" = Some lst' /\
    content lst' =
      [Markup "<p>Cannot set properties of null (setting 'textContent')</p>"].
Proof.
  destruct (loadTasks_without_stats
              (always 200 (VObj [("items", VArr [review_task])]))
              page_without_stats blank eq_refl eq_refl)
    as (e & st1 & st' & lst' & Hbody & Hrun & Hl & Hc).
  assert (He : e = TypeError
                     "Cannot set properties of null (setting 'textContent')").
  { vm_compute in Hbody. injection Hbody as <- _. reflexivity. }
  subst e. exists st', lst'. split; [exact Hrun |]. split; [exact Hl |].
  exact Hc.
Defined.

(** ** Session store *)

(** X9: [setToken] followed by [getToken].  A falsy token ([null], the
    empty string) removes the item, and [getToken] answers [null].  A
    truthy token that has a string form for which the storage has room is
    read back as that string, a non-empty string token as itself.  A
    truthy token without a string form, or one the storage has no room
    for, makes [setToken] throw and leaves the state as it was, the old
    token included; [setToken] throws in no other case.  Whatever
    happens, no other key of the storage and nothing outside the storage
    is touched. *)
Theorem setToken_getToken (w : world) (token : value) (st : state) :
  let run := setToken w token st in
  let st' := snd run in
  (truthy token = false ->
   fst run = Return tt /\ getToken st' = (Return None, st')) /\
  (forall text, storable (js w) (localStorage st) token text ->
     fst run = Return tt /\ getToken st' = (Return (Some text), st')) /\
  (forall t, token = VStr t -> t <> "" ->
     storage_accepts (js w) (localStorage st) "devtask_token" t = true ->
     fst run = Return tt /\ getToken st' = (Return (Some t), st')) /\
  (forall e, refused (js w) (localStorage st) token e ->
     run = (Throw e, st)) /\
  (forall e, fst run = Throw e -> refused (js w) (localStorage st) token e) /\
  (forall k, k <> "devtask_token" ->
             localStorage st' !! k = localStorage st !! k) /\
  document st' = document st /\ location st' = location st /\
  trace st' = trace st.
Proof.
  cbv zeta.
  assert (Hstring : forall t, t <> "" ->
            storage_accepts (js w) (localStorage st) "devtask_token" t = true ->
            storable (js w) (localStorage st) (VStr t) t).
  { intros t Hne Hroom. repeat split; [| exact Hroom].
    cbn. destruct (String.eqb_spec t ""); [contradiction | reflexivity]. }
  destruct (setToken_spec w token st)
    as [[Hfalsy Hrun] | [(text & Hs & Hrun) | (e & Hr & Hrun)]];
    rewrite Hrun; cbn [fst snd]; unfold getToken;
    cbn [localStorage with_storage document location trace].
  - rewrite lookup_delete_eq.
    split; [auto |].
    split; [intros text0 (Htruthy & _); congruence |].
    split; [intros t -> Hne Hroom;
            destruct (Hstring t Hne Hroom) as (Htruthy & _); congruence |].
    split; [intros e (Htruthy & _); congruence |].
    split; [intros e He; discriminate |].
    split; [intros k Hk; apply lookup_delete_ne; congruence | auto].
  - rewrite lookup_insert_eq.
    split; [intros Hfalsy; destruct Hs as (Htruthy & _); congruence |].
    split; [intros text0 Hs0;
            rewrite (storable_unique _ _ _ _ _ Hs0 Hs); auto |].
    split; [intros t -> Hne Hroom;
            rewrite (storable_unique _ _ _ _ _ (Hstring t Hne Hroom) Hs);
            auto |].
    split; [intros e Hr; destruct (storable_not_refused _ _ _ _ _ Hs Hr) |].
    split; [intros e He; discriminate |].
    split; [intros k Hk; apply lookup_insert_ne; congruence | auto].
  - split; [intros Hfalsy; destruct Hr as (Htruthy & _); congruence |].
    split; [intros text0 Hs0;
            destruct (storable_not_refused _ _ _ _ _ Hs0 Hr) |].
    split; [intros t -> Hne Hroom;
            destruct (storable_not_refused _ _ _ _ _ (Hstring t Hne Hroom)
                        Hr) |].
    split; [intros e0 Hr0; rewrite (refused_unique _ _ _ _ _ Hr0 Hr);
            reflexivity |].
    split; [intros e0 He; injection He as <-; exact Hr | auto].
Qed.

(** ** More on the API client *)

Lemma apiRequest_only_trace_helper (w : world) (path : string)
    (opts : options) (st : state) :
  fetches (trace (snd (apiRequest w path opts st))) =
  (fetches (trace st) ++ [api_call w (localStorage st) path opts])%list.
Proof.
  destruct (apiRequest_frame w path opts st) as (_ & _ & _ & Ht).
  cbv zeta in Ht.
  destruct Ht as [Ht | Ht]; rewrite Ht, fetches_app; reflexivity.
Qed.

(** X10: [apiRequest] changes nothing but the trace: storage, page and
    location are as before, exactly one request was sent, and the body
    was parsed at most once. *)
Theorem apiRequest_only_trace (w : world) (path : string) (opts : options)
    (st : state) :
  let st' := snd (apiRequest w path opts st) in
  localStorage st' = localStorage st /\ document st' = document st /\
  location st' = location st /\
  fetches (trace st') =
    (fetches (trace st) ++ [api_call w (localStorage st) path opts])%list /\
  parses (trace st') <= parses (trace st) + 1.
Proof.
  cbv zeta.
  destruct (apiRequest_frame w path opts st) as (Hs & Hd & Hl & Ht).
  cbv zeta in Hs, Hd, Hl, Ht. repeat split; try assumption.
  - destruct Ht as [Ht | Ht]; rewrite Ht, fetches_app; reflexivity.
  - destruct Ht as [Ht | Ht]; rewrite Ht, parses_app; cbn; lia.
Qed.

(** X11: when [fetch] itself rejects (no answer from the network),
    [apiRequest] rejects with that same error; nothing is parsed. *)
Theorem apiRequest_network_failure (w : world) (path : string)
    (opts : options) (st : state) (why : string) :
  server w (trace st) (api_call w (localStorage st) path opts) =
    NetworkError why ->
  apiRequest w path opts st =
  (Throw (TypeError why),
   record (Fetch (api_call w (localStorage st) path opts)) st).
Proof.
  intros Hsrv. rewrite apiRequest_outcome. cbv zeta. rewrite Hsrv.
  reflexivity.
Qed.

Lemma apiRequest_network_failure_witness :
  fst (apiRequest offline "/tasks" no_options (page ∅)) =
  Throw (TypeError "Failed to fetch").
Proof.
  rewrite (apiRequest_network_failure offline "/tasks" no_options (page ∅)
             "Failed to fetch" eq_refl).
  reflexivity.
Defined.

(** X12: a 2xx answer other than 204 whose body is not valid JSON makes
    [apiRequest] reject with the parser's error: the failure of
    [res.json()] on the success path is not caught inside [apiRequest]. *)
Theorem apiRequest_unparseable_success (w : world) (path : string)
    (opts : options) (st : state) (res : response) (why : string) :
  server w (trace st) (api_call w (localStorage st) path opts) =
    Responded res ->
  ok res = true -> status res <> 204%Z -> payload res = Malformed why ->
  exists st',
    apiRequest w path opts st = (Throw (SyntaxError why), st') /\
    parses (trace st') = parses (trace st) + 1.
Proof.
  intros Hsrv Hok Hst Hbody.
  rewrite apiRequest_outcome. cbv zeta. rewrite Hsrv.
  unfold api_outcome. rewrite Hok, Hbody. cbn [negb].
  destruct (Z.eqb_spec (status res) 204); [contradiction |].
  eexists. split; [reflexivity |].
  cbn [trace record]. rewrite !parses_app. cbn. lia.
Qed.

Lemma apiRequest_unparseable_success_witness :
  exists st',
    apiRequest empty_created "/auth/register" (post (credentials someone))
      (page ∅) =
    (Throw (SyntaxError "Unexpected end of JSON input"), st') /\
    parses (trace st') = 1.
Proof.
  apply (apiRequest_unparseable_success empty_created "/auth/register"
           (post (credentials someone)) (page ∅)
           {| status := 201;
              payload := Malformed "Unexpected end of JSON input" |}
           "Unexpected end of JSON input").
  - reflexivity.
  - reflexivity.
  - discriminate.
  - reflexivity.
Defined.

(** ** More on the authentication handlers *)

(** X13: on a page without the error element, [handleLogin] and
    [handleSignup] throw while hiding it, before any request: the only
    trace of the submit is the prevented default action. *)
Theorem auth_handlers_need_error_element (w : world) (form : auth_form)
    (st : state) :
  (document st !! "login-error" = None ->
   handleLogin w form st =
   (Throw (TypeError (type_error_message (js w) (WriteOnNull "hidden"))),
    record PreventDefault st)) /\
  (document st !! "signup-error" = None ->
   handleSignup w form st =
   (Throw (TypeError (type_error_message (js w) (WriteOnNull "hidden"))),
    record PreventDefault st)).
Proof.
  split; intros Hel.
  - unfold handleLogin. run. rewrite document_record, Hel. reflexivity.
  - unfold handleSignup. run. rewrite document_record, Hel. reflexivity.
Qed.

Lemma auth_handlers_need_error_element_witness :
  fst (handleLogin (always 200 (VObj [("access_token", VStr "fresh")]))
         someone page_without_stats) =
  Throw (TypeError "Cannot set properties of null (setting 'hidden')") /\
  fetches (trace (snd (handleLogin
                         (always 200 (VObj [("access_token", VStr "fresh")]))
                         someone page_without_stats))) = [].
Proof.
  rewrite (proj1 (auth_handlers_need_error_element
                    (always 200 (VObj [("access_token", VStr "fresh")]))
                    someone page_without_stats) eq_refl).
  split; reflexivity.
Defined.

(** X14: a login answered without a body to read (status 204, or the
    JSON value [null]) is not a login: reading [access_token] of [null]
    throws, the handler shows that error, stores nothing and does not
    navigate. *)
Theorem handleLogin_null_answer (w : world) (form : auth_form)
    (st st2 : state) (el : element) :
  document st !! "login-error" = Some el ->
  apiRequest w "/auth/login" (post (credentials form))
    (submitted "login-error" st) = (Return VNull, st2) ->
  exists st',
    handleLogin w form st = (Return tt, st') /\
    localStorage st' = localStorage st /\
    location st' = location st /\
    document st' !! "login-error" =
      Some {| hidden := false;
              content :=
                text_nodes (type_error_message (js w)
                              (ReadOfNullish VNull "access_token")) |}.
Proof.
  intros Hel Hreq.
  destruct (apiRequest_keeps _ _ _ _ _ _ Hreq) as (Hs2 & Hd2 & Hl2).
  rewrite (handleLogin_run w form st el Hel).
  unfold try_catch. unfold bind at 1. rewrite Hreq.
  unfold bind at 1. unfold lift at 1. cbn [get_prop].
  rewrite show_error_run. eexists. split; [reflexivity |].
  cbn [localStorage location document with_document].
  rewrite Hs2, Hl2, Hd2. repeat split.
  apply shown_error with (el := el). exact Hel.
Qed.

Lemma handleLogin_null_answer_witness :
  exists st',
    handleLogin no_content someone (page {[ "devtask_token" := "old" ]}) =
      (Return tt, st') /\
    localStorage st' = {[ "devtask_token" := "old" ]} /\
    location st' = "/" /\
    document st' !! "login-error" =
      Some {| hidden := false;
              content :=
                [Text "Cannot read properties of null (reading 'access_token')"] |}.
Proof.
  destruct (handleLogin_null_answer no_content someone
              (page {[ "devtask_token" := "old" ]})
              (snd (apiRequest no_content "/auth/login"
                      (post (credentials someone))
                      (submitted "login-error"
                         (page {[ "devtask_token" := "old" ]}))))
              {| hidden := true; content := [] |} eq_refl eq_refl)
    as (st' & Hrun & Hs & Hl & Hd).
  exists st'. split; [exact Hrun |]. split; [exact Hs |].
  split; [exact Hl | exact Hd].
Defined.

(** X15: when the registration request throws, [handleSignup] shows the
    error, leaves the storage and the location alone, and never attempts
    the login: the registration is the only request sent. *)
Theorem handleSignup_register_failure (w : world) (form : auth_form)
    (st st2 : state) (el : element) (err : exn) :
  document st !! "signup-error" = Some el ->
  apiRequest w "/auth/register" (post (credentials form))
    (submitted "signup-error" st) = (Throw err, st2) ->
  exists st',
    handleSignup w form st = (Return tt, st') /\
    localStorage st' = localStorage st /\
    location st' = location st /\
    document st' !! "signup-error" =
      Some {| hidden := false; content := text_nodes (message err) |} /\
    fetches (trace st') =
      (fetches (trace st) ++
       [api_call w (localStorage st) "/auth/register"
          (post (credentials form))])%list.
Proof.
  intros Hel Hreq.
  destruct (apiRequest_keeps _ _ _ _ _ _ Hreq) as (Hs2 & Hd2 & Hl2).
  pose proof (apiRequest_only_trace_helper w "/auth/register"
                (post (credentials form)) (submitted "signup-error" st))
    as Hf.
  rewrite Hreq in Hf. cbn [snd] in Hf.
  rewrite (handleSignup_run w form st el Hel).
  unfold try_catch. unfold bind at 1. rewrite Hreq.
  rewrite show_error_run. eexists. split; [reflexivity |].
  cbn [localStorage location document with_document trace].
  rewrite Hs2, Hl2, Hd2, Hf. repeat split.
  - apply shown_error with (el := el). exact Hel.
  - cbn [trace submitted with_document record localStorage].
    rewrite fetches_app. cbn. rewrite app_nil_r. reflexivity.
Qed.

Lemma handleSignup_register_failure_witness :
  exists st',
    handleSignup (always 409 (VObj [("detail", VStr "Email already registered")]))
      someone (page ∅) = (Return tt, st') /\
    document st' !! "signup-error" =
      Some {| hidden := false;
              content := [Text "Email already registered"] |} /\
    map url (fetches (trace st')) = ["/auth/register"].
Proof.
  pose (w := always 409 (VObj [("detail", VStr "Email already registered")])).
  destruct (handleSignup_register_failure w someone (page ∅)
              (snd (apiRequest w "/auth/register" (post (credentials someone))
                      (submitted "signup-error" (page ∅))))
              {| hidden := true; content := [] |}
              (Error "Email already registered") eq_refl eq_refl)
    as (st' & Hrun & _ & _ & Hd & Hf).
  exists st'. split; [exact Hrun |]. split; [exact Hd |].
  rewrite Hf. reflexivity.
Defined.



(** X17: the login and the request after it.  Once [handleLogin] has
    stored a non-empty string token (the storage having room for it),
    every [apiRequest] from the state it leaves carries that token as the
    bearer [Authorization] header, whatever headers the caller
    supplies. *)
Theorem login_authorizes_requests (w : world) (form : auth_form)
    (st st2 : state) (el : element) (data : value) (t : string)
    (path : string) (opts : options) :
  document st !! "login-error" = Some el ->
  apiRequest w "/auth/login" (post (credentials form))
    (submitted "login-error" st) = (Return data, st2) ->
  get_prop (js w) data "access_token" = Return (VStr t) ->
  t <> "" ->
  storage_accepts (js w) (localStorage st) "devtask_token" t = true ->
  let st' := snd (handleLogin w form st) in
  fst (handleLogin w form st) = Return tt /\
  localStorage st' !! "devtask_token" = Some t /\
  headers (api_call w (localStorage st') path opts) !! "Authorization" =
    Some ("Bearer " ++ t) /\
  fetches (trace (snd (apiRequest w path opts st'))) =
    (fetches (trace st') ++ [api_call w (localStorage st') path opts])%list.
Proof.
  intros Hel Hreq Htoken Hne Hroom. cbv zeta.
  destruct (apiRequest_keeps _ _ _ _ _ _ Hreq) as (Hs2 & _ & _).
  assert (Hrun : handleLogin w form st =
            (Return tt,
             record (Navigate "/static/dashboard.html")
               (with_location "/static/dashboard.html"
                  (with_storage (insert "devtask_token" t) st2)))).
  { rewrite (handleLogin_answered w form st st2 el data (VStr t) Hel Hreq
               Htoken).
    rewrite (setToken_stores w (VStr t) t st2); [reflexivity |].
    repeat split; [| rewrite Hs2; exact Hroom].
    cbn. destruct (String.eqb_spec t ""); [contradiction | reflexivity]. }
  rewrite Hrun. cbn [fst snd]. split; [reflexivity |].
  split; [apply lookup_insert_eq |].
  split; [| apply apiRequest_only_trace_helper].
  cbn [api_call headers localStorage record with_location with_storage].
  rewrite request_headers_lookup. unfold stored_token.
  rewrite lookup_insert_eq.
  destruct (String.eqb_spec t ""); [contradiction |]. reflexivity.
Qed.

Lemma login_authorizes_requests_witness :
  let w := always 200 (VObj [("access_token", VStr "fresh")]) in
  let st' := snd (handleLogin w someone (page ∅)) in
  headers (api_call w (localStorage st') "/tasks"
             {| opt_method := None;
                opt_headers := Some {[ "Authorization" := "Basic abc" ]};
                opt_body := None |}) !! "Authorization" =
  Some "Bearer fresh".
Proof.
  cbv zeta.
  pose (w := always 200 (VObj [("access_token", VStr "fresh")])).
  apply (login_authorizes_requests w someone (page ∅)
           (snd (apiRequest w "/auth/login" (post (credentials someone))
                   (submitted "login-error" (page ∅))))
           {| hidden := true; content := [] |}
           (VObj [("access_token", VStr "fresh")]) "fresh" "/tasks"
           {| opt_method := None;
              opt_headers := Some {[ "Authorization" := "Basic abc" ]};
              opt_body := None |}
           eq_refl eq_refl eq_refl ltac:(discriminate) eq_refl).
Defined.

(** X18: the logout and the request after it.  From the state the logout
    listener leaves, [apiRequest] adds no [Authorization] header of its
    own: the header is the caller's, if the caller supplied one. *)
Theorem logout_unauthorizes_requests (w : world) (st : state)
    (path : string) (opts : options) :
  let st' := snd (logout_click w st) in
  headers (api_call w (localStorage st') path opts) !! "Authorization" =
    default ∅ (opt_headers opts) !! "Authorization" /\
  (opt_headers opts = None ->
   headers (api_call w (localStorage st') path opts) !! "Authorization" =
     None).
Proof.
  cbv zeta.
  assert (Hgone : stored_token (localStorage (snd (logout_click w st))) = None).
  { unfold stored_token. cbn. rewrite lookup_delete_eq. reflexivity. }
  assert (H : headers (api_call w (localStorage (snd (logout_click w st)))
                         path opts) !! "Authorization" =
              default ∅ (opt_headers opts) !! "Authorization").
  { cbn [api_call headers]. rewrite request_headers_lookup, Hgone.
    unfold merged_header, caller_or_default.
    destruct (default ∅ (opt_headers opts) !! "Authorization"); reflexivity. }
  split; [exact H |]. intros Hnone. rewrite H, Hnone. reflexivity.
Qed.

(** ** More on the dashboard *)

(** [loadTasks] once the answer is in, on a page with both elements. *)
Lemma loadTasks_fetched (w : world) (st st1 : state) (lst sts : element)
    (data : value) :
  document st !! "task-list" = Some lst ->
  document st !! "task-stats" = Some sts ->
  apiRequest w "/tasks" no_options st = (Return data, st1) ->
  loadTasks w st =
  try_catch (render_tasks w (Some "task-list") (Some "task-stats") data)
    (show_failure w (Some "task-list") (Some "task-stats")) st1.
Proof.
  intros Hlist Hstats Hreq.
  rewrite loadTasks_unfold, Hlist. unfold handle_of. rewrite Hstats.
  unfold try_catch. unfold bind at 1. rewrite Hreq. reflexivity.
Qed.

(** X19: an answer whose [items] is not an array.  If reading its
    [length] throws ([items] missing or [null]), the error is shown in
    the list; if its [length] is falsy (a number, a boolean, the empty
    string, an object without one), the page shows the placeholder as for
    an empty list; otherwise (a non-empty string, an object with a truthy
    [length]) the list shows that [forEach] is not a function.  The
    summary is blank in all three cases. *)
Theorem loadTasks_items_not_array (w : world) (st st1 : state)
    (lst sts : element) (data items : value) :
  document st !! "task-list" = Some lst ->
  document st !! "task-stats" = Some sts ->
  apiRequest w "/tasks" no_options st = (Return data, st1) ->
  get_prop (js w) data "items" = Return items ->
  (forall l, items <> VArr l) ->
  exists st' lst' sts',
    loadTasks w st = (Return tt, st') /\
    document st' !! "task-list" = Some lst' /\
    document st' !! "task-stats" = Some sts' /\
    content sts' = [] /\
    content lst' =
      match no_length w items with
      | Throw e => [Markup ("<p>" ++ message e ++ "</p>")]
      | Return true => [Markup placeholder_markup]
      | Return false =>
          [Markup ("<p>" ++
                   type_error_message (js w) (NotAFunction "forEach") ++
                   "</p>")]
      end.
Proof.
  intros Hlist Hstats Hreq Hitems Hnot.
  destruct (apiRequest_keeps _ _ _ _ _ _ Hreq) as (_ & Hd1 & _).
  rewrite <- Hd1 in Hlist, Hstats.
  rewrite (loadTasks_fetched w st st1 lst sts data); try (rewrite <- Hd1);
    try assumption.
  unfold render_tasks, show_failure. run. rewrite Hitems. cbv beta iota.
  assert (Hl : forall c c' (m : gmap string element),
            m !! "task-list" = Some lst ->
            alter (set_content []) "task-stats"
              (alter (set_content c') "task-list"
                 (alter (set_content c) "task-list" m)) !! "task-list" =
            Some {| hidden := hidden lst; content := c' |}).
  { intros c c' m Hm. rewrite lookup_alter_ne by discriminate.
    rewrite !lookup_alter_eq, Hm. reflexivity. }
  assert (Hs : forall c c' (m : gmap string element),
            m !! "task-stats" = Some sts ->
            alter (set_content []) "task-stats"
              (alter (set_content c') "task-list"
                 (alter (set_content c) "task-list" m)) !! "task-stats" =
            Some {| hidden := hidden sts; content := [] |}).
  { intros c c' m Hm. rewrite lookup_alter_eq.
    rewrite !lookup_alter_ne by discriminate. rewrite Hm. reflexivity. }
  destruct (no_length w items) as [[|] | e]; cbv beta iota.
  - eexists _, _, _. split; [reflexivity |].
    cbn [document with_document].
    split; [apply Hl, Hlist |]. split; [apply Hs, Hstats |].
    split; reflexivity.
  - destruct items; try (exfalso; eapply Hnot; reflexivity);
      (eexists _, _, _; split; [reflexivity |];
       cbn [document with_document];
       split; [apply Hl, Hlist |]; split; [apply Hs, Hstats |];
       split; reflexivity).
  - eexists _, _, _. split; [reflexivity |].
    cbn [document with_document].
    split; [apply Hl, Hlist |]. split; [apply Hs, Hstats |].
    split; reflexivity.
Qed.

Lemma loadTasks_items_not_array_witness :
  exists st' lst' sts',
    loadTasks (always 200 (VObj [("tasks", VArr [review_task])])) (page ∅) =
      (Return tt, st') /\
    document st' !! "task-list" = Some lst' /\
    document st' !! "task-stats" = Some sts' /\
    content sts' = [] /\
    content lst' =
      [Markup
         "<p>Cannot read properties of undefined (reading 'length')</p>"].
Proof.
  pose (w := always 200 (VObj [("tasks", VArr [review_task])])).
  apply (loadTasks_items_not_array w (page ∅)
           (snd (apiRequest w "/tasks" no_options (page ∅))) blank blank
           (VObj [("tasks", VArr [review_task])]) VUndefined
           eq_refl eq_refl eq_refl eq_refl).
  intros l. discriminate.
Defined.

(** The trace of a detached [loadTasks]: what was there, then at most one
    request, the one for the list, sent exactly when the page has the
    list element. *)
Lemma detached_loadTasks_trace (w : world) (st : state) :
  fst (detached (loadTasks w) st) = Return tt /\
  exists tail,
    trace (snd (detached (loadTasks w) st)) = (trace st ++ tail)%list /\
    fetches tail =
      if present st "task-list"
      then [api_call w (localStorage st) "/tasks" no_options] else [].
Proof.
  assert (Hload : exists tail,
            trace (snd (loadTasks w st)) = (trace st ++ tail)%list /\
            fetches tail =
              if present st "task-list"
              then [api_call w (localStorage st) "/tasks" no_options]
              else []).
  { rewrite loadTasks_unfold. unfold present.
    destruct (document st !! "task-list") as [lst |].
    - unfold try_catch, bind.
      destruct (apiRequest_frame w "/tasks" no_options st)
        as (_ & _ & _ & Ht). cbv zeta in Ht.
      assert (Ht' : exists l0,
                trace (snd (apiRequest w "/tasks" no_options st)) =
                (trace st ++ l0)%list /\
                fetches l0 =
                  [api_call w (localStorage st) "/tasks" no_options])
        by (destruct Ht as [Ht | Ht]; rewrite Ht; eauto).
      clear Ht. destruct Ht' as (l0 & Ht & Hf).
      set (statsEl := handle_of st "task-stats").
      destruct (apiRequest w "/tasks" no_options st) as [[data | e] st1];
        cbn [snd] in Ht.
      + destruct (silent_render_tasks w statsEl data st1) as [_ Ht2].
        destruct (render_tasks w (Some "task-list") statsEl data st1)
          as [[u | e] st2]; cbn [snd] in Ht2 |- *.
        * exists l0. split; [congruence | exact Hf].
        * destruct (silent_show_failure w (Some "task-list") statsEl e st2)
            as [_ Ht3].
          exists l0. split; [congruence | exact Hf].
      + destruct (silent_show_failure w (Some "task-list") statsEl e st1)
          as [_ Ht3].
        exists l0. split; [congruence | exact Hf].
    - exists []. cbn. rewrite app_nil_r. auto. }
  destruct Hload as (tail & Ht & Hf). unfold detached.
  destruct (loadTasks w st) as [[u | e] st1]; cbn [fst snd] in Ht |- *;
    (split; [reflexivity |]).
  - exists tail. auto.
  - exists (tail ++ [UnhandledRejection e])%list. cbn [trace record].
    rewrite Ht, <- app_assoc, fetches_app. cbn. rewrite app_nil_r. auto.
Qed.

(** X20: a click on the delete button of a task that has no [id]: once
    confirmed, the DELETE goes to ["/tasks/undefined"]; nothing checks the
    id before the request. *)
Theorem delete_click_without_id (w : world) (task : value) (st : state) :
  get_prop (js w) task "id" = Return VUndefined ->
  user w (trace st) "Delete this task?" = true ->
  exists rest,
    fetches (trace (snd (delete_click w task st))) =
      (fetches (trace st) ++
       api_call w (localStorage st) "/tasks/undefined" delete_options
       :: rest)%list /\
    url (api_call w (localStorage st) "/tasks/undefined" delete_options) =
      "/tasks/undefined" /\
    method (api_call w (localStorage st) "/tasks/undefined" delete_options) =
      Some "DELETE".
Proof.
  intros Hid Hyes.
  set (asked := record (Confirm "Delete this task?") st).
  pose proof (apiRequest_only_trace_helper w "/tasks/undefined" delete_options
                asked) as Hf.
  assert (Hasked : fetches (trace asked) = fetches (trace st)).
  { subst asked. cbn [trace record]. rewrite fetches_app. cbn.
    apply app_nil_r. }
  rewrite Hasked in Hf.
  unfold delete_click. unfold bind at 1. unfold confirm at 1.
  rewrite Hyes. cbn [negb]. unfold bind at 1. unfold lift at 1.
  rewrite Hid. unfold bind at 1. unfold lift at 1.
  cbn [to_string prim_string]. unfold bind at 1.
  fold delete_options. fold asked.
  change ("/tasks/" ++ "undefined") with "/tasks/undefined".
  destruct (apiRequest w "/tasks/undefined" delete_options asked)
    as [[v | e] st2]; cbn [snd] in Hf |- *.
  - destruct (detached_loadTasks_trace w st2) as (_ & tail & Ht & _).
    exists (fetches tail). rewrite Ht, fetches_app, Hf, <- app_assoc.
    repeat split.
  - exists []. rewrite Hf. repeat split.
Qed.

Lemma delete_click_without_id_witness :
  exists rest,
    map url (fetches (trace (snd (delete_click tracker task_without_id
                                    (page ∅))))) =
    "/tasks/undefined" :: rest.
Proof.
  destruct (delete_click_without_id tracker task_without_id (page ∅)
              eq_refl eq_refl) as (rest & Hf & _).
  exists (map url rest). rewrite Hf. reflexivity.
Defined.

(** X21: whatever the form holds and whatever happens next, the first
    thing [handleNewTask] sends is a POST to ["/tasks"] whose body has the
    title and the status as entered and, for [time_logged], zero when the
    field is blank and otherwise what [JSON.stringify] writes for
    [parseFloat] of the field: [null] when that is NaN or infinite (a
    field that does not start with a number, or one too large for a
    double), and the number itself otherwise (a zero as [0]). *)
Theorem handleNewTask_posts_form (w : world) (form : task_form) (st : state) :
  let req := api_call w (localStorage st) "/tasks" (post (new_task w form)) in
  let x := parseFloat (js w) (time_logged_field form) in
  (exists rest,
     fetches (trace (snd (handleNewTask w form st))) =
     (fetches (trace st) ++ req :: rest)%list) /\
  url req = "/tasks" /\ method req = Some "POST" /\
  body req =
    Some (VObj [("title", VStr (title_field form));
                ("status", VStr (status_field form));
                ("time_logged",
                 if String.eqb (time_logged_field form) "" then VNum 0%float
                 else if is_nan x || is_infinity x then VNull
                 else if is_zero x then VNum 0%float
                 else VNum x)]).
Proof.
  cbv zeta. split; [| split; [reflexivity | split; [reflexivity |]]].
  - set (st0 := record PreventDefault st).
    pose proof (apiRequest_only_trace_helper w "/tasks"
                  (post (new_task w form)) st0) as Hf.
    assert (H0 : fetches (trace st0) = fetches (trace st)).
    { subst st0. cbn [trace record]. rewrite fetches_app. cbn.
      apply app_nil_r. }
    rewrite H0 in Hf.
    unfold handleNewTask. unfold bind at 1. unfold emit at 1.
    fold st0. unfold bind at 1.
    destruct (apiRequest w "/tasks" (post (new_task w form)) st0)
      as [[v | e] st1]; cbn [snd] in Hf |- *.
    + unfold bind at 1. unfold emit at 1.
      destruct (detached_loadTasks_trace w (record FormReset st1))
        as (_ & tail & Ht & _).
      exists (fetches tail). rewrite Ht. cbn [trace record].
      rewrite !fetches_app, Hf. rewrite <- !app_assoc. reflexivity.
    + exists []. exact Hf.
  - unfold api_call, post, new_task. cbn [body opt_body].
    destruct (String.eqb (time_logged_field form) ""); reflexivity.
Qed.

(** Hours that are not a number: the engine of the runs parses nothing,
    so the field comes back as NaN and the body says [null]. *)
Example unparsed_hours_are_sent_as_null :
  let form := {| title_field := "Plan"; status_field := "todo";
                 time_logged_field := "abc" |} in
  body <$> fetches (trace (snd (handleNewTask offline form (page ∅)))) =
  [Some (VObj [("title", VStr "Plan"); ("status", VStr "todo");
               ("time_logged", VNull)])].
Proof. vm_compute. reflexivity. Qed.

(** X22: on a page without the [task-list] element a successful
    [handleNewTask] posts the task and resets the form, and that is all:
    there is nothing to reload. *)
Theorem handleNewTask_without_list (w : world) (form : task_form)
    (st st1 : state) (created : value) :
  document st !! "task-list" = None ->
  apiRequest w "/tasks" (post (new_task w form)) (record PreventDefault st) =
    (Return created, st1) ->
  handleNewTask w form st = (Return tt, record FormReset st1) /\
  fetches (trace (record FormReset st1)) =
    (fetches (trace st) ++
     [api_call w (localStorage st) "/tasks" (post (new_task w form))])%list.
Proof.
  intros Hlist Hreq.
  destruct (apiRequest_keeps _ _ _ _ _ _ Hreq) as (_ & Hd1 & _).
  pose proof (apiRequest_only_trace_helper w "/tasks"
                (post (new_task w form)) (record PreventDefault st)) as Hf.
  rewrite Hreq in Hf. cbn [snd] in Hf. split.
  - unfold handleNewTask. unfold bind at 1. unfold emit at 1.
    unfold bind at 1. rewrite Hreq. unfold bind at 1. unfold emit at 1.
    unfold detached. rewrite loadTasks_without_list_helper; [reflexivity |].
    rewrite document_record, Hd1, document_record. exact Hlist.
  - cbn [trace record]. rewrite fetches_app, Hf. cbn [trace record].
    rewrite fetches_app. cbn. rewrite !app_nil_r. reflexivity.
Qed.

Lemma handleNewTask_without_list_witness :
  exists st',
    handleNewTask (always 201 review_task)
      {| title_field := "Ship it"; status_field := "in_progress";
         time_logged_field := "" |}
      {| localStorage := ∅; document := ∅; location := "/"; trace := [] |} =
      (Return tt, st') /\
    map method (fetches (trace st')) = [Some "POST"].
Proof.
  pose (w := always 201 review_task).
  pose (form := {| title_field := "Ship it"; status_field := "in_progress";
                   time_logged_field := "" |}).
  pose (st := {| localStorage := ∅; document := ∅; location := "/";
                 trace := [] |}).
  destruct (handleNewTask_without_list w form st
              (snd (apiRequest w "/tasks" (post (new_task w form))
                      (record PreventDefault st)))
              review_task eq_refl eq_refl) as [Hrun Hf].
  eexists. split; [exact Hrun |]. rewrite Hf. reflexivity.
Defined.

(** X23: no optimistic removal.  After a confirmed delete that
    completes (the id of the task having a string form), when the answer
    to the reload is a list of renderable tasks (string status, numeric
    hours, title with a string form), the list shows exactly the rows of
    that answer, whatever was rendered before: a task the server still
    lists is still on the page. *)
Theorem delete_then_list_is_the_servers (w : world) (st st2 : state)
    (el sts : element) (i : nat) (row : node) (task id v : value)
    (id_text : string)
    (res : response) (data : value) (tasks : list value) :
  document st !! "task-list" = Some el ->
  document st !! "task-stats" = Some sts ->
  content el !! i = Some row ->
  row_listener row = Some (DeleteTask task) ->
  get_prop (js w) task "id" = Return id ->
  to_string (js w) id = Return id_text ->
  user w (trace st) "Delete this task?" = true ->
  apiRequest w ("/tasks/" ++ id_text) delete_options
    (record (Confirm "Delete this task?") st) = (Return v, st2) ->
  server w (trace st2) (api_call w (localStorage st) "/tasks" no_options) =
    Responded res ->
  ok res = true -> status res <> 204%Z -> payload res = Json data ->
  get_prop (js w) data "items" = Return (VArr tasks) ->
  Forall (renderable (js w)) tasks ->
  exists st' lst',
    click_delete w i st = (Return tt, st') /\
    document st' !! "task-list" = Some lst' /\
    content lst' = list_content (js w) tasks.
Proof.
  intros Hlist Hstats Hrow Hlistener Hid Htext Hyes Hdel Hsrv Hok Hst Hbody
    Hitems Hwf.
  destruct (apiRequest_keeps _ _ _ _ _ _ Hdel) as (Hs2 & Hd2 & _).
  assert (Hlist2 : document st2 !! "task-list" = Some el)
    by (rewrite Hd2; exact Hlist).
  assert (Hstats2 : document st2 !! "task-stats" = Some sts)
    by (rewrite Hd2; exact Hstats).
  assert (Hsrv2 : server w (trace st2)
                    (api_call w (localStorage st2) "/tasks" no_options) =
                  Responded res) by (rewrite Hs2; exact Hsrv).
  destruct (loadTasks_rendered w st2 el sts res data tasks Hlist2 Hstats2
              Hsrv2 Hok Hst Hbody Hitems Hwf)
    as (st' & Hrun & Hl & _).
  exists st', {| hidden := hidden el; content := list_content (js w) tasks |}.
  split; [| split; [exact Hl | reflexivity]].
  unfold click_delete. rewrite Hlist, Hrow, Hlistener.
  unfold delete_click. unfold bind at 1. unfold confirm at 1.
  rewrite Hyes. cbn [negb]. unfold bind at 1. unfold lift at 1.
  rewrite Hid. unfold bind at 1. unfold lift at 1. rewrite Htext.
  unfold bind at 1. fold delete_options. rewrite Hdel.
  unfold detached. rewrite Hrun. reflexivity.
Qed.

Lemma delete_then_list_is_the_servers_witness :
  let st := snd (loadTasks tracker (page ∅)) in
  exists st' lst',
    click_delete tracker 0 st = (Return tt, st') /\
    document st' !! "task-list" = Some lst' /\
    content lst' = [rendered_row stub_engine review_task].
Proof.
  cbv zeta.
  pose (st := snd (loadTasks tracker (page ∅))).
  pose (asked := record (Confirm "Delete this task?") st).
  pose (st2 := snd (apiRequest tracker "/tasks/7" delete_options asked)).
  apply (delete_then_list_is_the_servers tracker st st2
           {| hidden := false;
              content := [rendered_row stub_engine review_task] |}
           {| hidden := false;
              content := [Text "1 tasks • 0 completed • 1.5h logged"] |}
           0 (rendered_row stub_engine review_task) review_task (VStr "7")
           VNull "7"
           {| status := 200;
              payload := Json (VObj [("items", VArr [review_task])]) |}
           (VObj [("items", VArr [review_task])]) [review_task]).
  - reflexivity.
  - vm_compute. reflexivity.
  - reflexivity.
  - reflexivity.
  - reflexivity.
  - reflexivity.
  - reflexivity.
  - reflexivity.
  - reflexivity.
  - reflexivity.
  - discriminate.
  - reflexivity.
  - reflexivity.
  - constructor; [| constructor].
    exists "in_progress", 1.5%float, "Ship it". repeat split; reflexivity.
Defined.

(** ** Page load *)

(** The page load's lookup of the logout button comes after the list
    was loaded; the button is where it was. *)
Lemma logout_button_after_load (w : world) (st : state) :
  fst (detached (loadTasks w) st) = Return tt /\
  document (snd (detached (loadTasks w) st)) !! "logout-btn" =
    document st !! "logout-btn" /\
  localStorage (snd (detached (loadTasks w) st)) = localStorage st /\
  location (snd (detached (loadTasks w) st)) = location st.
Proof.
  destruct (tidy_loadTasks w st) as (Hs & Hl & Ho & _).
  specialize (Ho "logout-btn" ltac:(discriminate) ltac:(discriminate)).
  unfold detached. destruct (loadTasks w st) as [[u | e] st1];
    cbn [fst snd] in *; auto.
Qed.

(** X24: the page load never throws.  Starting without listeners, it
    registers exactly one listener per element that is on the page, in
    the order login form, signup form, new-task form, logout button;
    elements that are missing are skipped.  It leaves the storage and the
    location alone. *)
Theorem page_load_registers (w : world) (st : state) :
  exists st',
    DOMContentLoaded w {| window := st; registered := [] |} =
      (Return tt, {| window := st'; registered := wiring_of st |}) /\
    localStorage st' = localStorage st /\ location st' = location st.
Proof.
  destruct (logout_button_after_load w st) as (Hr & Hbtn & Hs & Hl).
  unfold DOMContentLoaded, initAuthPages, initDashboard, wiring_of, present.
  wire.
  destruct (document st !! "login-form"); wire;
    destruct (document st !! "signup-form"); wire;
    destruct (document st !! "new-task-form"); wire;
    try (destruct (detached (loadTasks w) st) as [r st1];
         cbn [fst snd] in Hr, Hbtn, Hs, Hl; subst r; wire; rewrite Hbtn);
    destruct (document st !! "logout-btn"); wire;
    eexists; (split; [reflexivity | auto]).
Qed.

(** X25: the page load asks the server for the task list exactly when
    the page has both the new-task form and the list element, and sends
    nothing else: a page that shows the list without the form never
    loads it. *)
Theorem page_load_requests (w : world) (st : state) :
  let b' := snd (DOMContentLoaded w {| window := st; registered := [] |}) in
  fetches (trace (window b')) =
  (fetches (trace st) ++
   if present st "new-task-form" && present st "task-list"
   then [api_call w (localStorage st) "/tasks" no_options] else [])%list.
Proof.
  cbv zeta.
  destruct (detached_loadTasks_trace w st) as (Hr & tail & Ht & Hf).
  unfold DOMContentLoaded, initAuthPages, initDashboard.
  unfold present at 1. wire.
  destruct (document st !! "login-form"); wire;
    destruct (document st !! "signup-form"); wire;
    destruct (document st !! "new-task-form"); wire;
    try (destruct (detached (loadTasks w) st) as [r st1];
         cbn [fst snd] in Hr, Ht; subst r; wire);
    match goal with
    | |- context [document ?s !! "logout-btn"] =>
        destruct (document s !! "logout-btn")
    end; wire; cbn [snd];
    try (rewrite Ht, fetches_app, Hf; reflexivity);
    symmetry; apply app_nil_r.
Qed.

Example page_load_on_the_login_page :
  let st := {| localStorage := ∅;
               document := {[ "login-form" := blank;
                              "login-error" := blank ]};
               location := "/static/login.html"; trace := [] |} in
  DOMContentLoaded offline {| window := st; registered := [] |} =
  (Return tt,
   {| window := st;
      registered := [listens "login-form" "submit" HandleLogin] |}).
Proof. vm_compute. reflexivity. Qed.

Lemma handleNewTask_propagates_witness :
  handleNewTask offline
    {| title_field := "Plan"; status_field := "todo";
       time_logged_field := "" |} (page ∅) =
  (Throw (TypeError "Failed to fetch"),
   snd (apiRequest offline "/tasks"
          (post (new_task offline
                   {| title_field := "Plan"; status_field := "todo";
                      time_logged_field := "" |}))
          (record PreventDefault (page ∅)))).
Proof.
  apply (handleNewTask_propagates offline
           {| title_field := "Plan"; status_field := "todo";
              time_logged_field := "" |} (page ∅)).
  reflexivity.
Defined.

Lemma delete_click_propagates_witness :
  fst (delete_click offline review_task (page ∅)) =
  Throw (TypeError "Failed to fetch").
Proof.
  rewrite (proj1 (delete_click_propagates offline review_task (VStr "7")
                    (page ∅)
                    (snd (apiRequest offline "/tasks/7" delete_options
                            (record (Confirm "Delete this task?") (page ∅))))
                    (TypeError "Failed to fetch") eq_refl eq_refl eq_refl)).
  reflexivity.
Defined.
